(** * Module 2 image-detection handler: the record processor

    A shallow embedding of the two implementations of the stream handler,

      - [functions/typescript/modules/module2/index.ts]   (module [TS])
      - [functions/java/modules/module2/.../Module2HandlerComplete.java]
        (module [Java])

    Both are sequential programs whose only observable behaviour is the
    sequence of calls they make to their collaborators (the labeling
    service, the parameter store, the secret store, the reporting API, the
    logger) and the way they terminate (normally, or with a thrown value).
    The embedding is therefore a state-and-exception monad over the history
    of calls made so far. The collaborators are not part of the handler:
    they are fields of a runtime record, and each may answer according to
    the whole history, so that every behaviour of a stateful service can be
    represented. *)

From Stdlib Require Import String List Bool ZArith Lia.
Import ListNotations.
Local Open Scope string_scope.
Local Open Scope list_scope.

(** ** Association lists with string keys *)

Fixpoint assoc {V : Type} (k : string) (l : list (string * V)) : option V :=
  match l with
  | [] => None
  | (k', v) :: rest => if String.eqb k k' then Some v else assoc k rest
  end.

(** ** DynamoDB attribute values (the wire format of a stream record) *)

#[warnings="-register-all"]
Inductive AttributeValue : Type :=
| AttrS (s : string)
| AttrN (n : string)
| AttrB (b : string)
| AttrBOOL (b : bool)
| AttrNULL
| AttrSS (ss : list string)
| AttrNS (ns : list string)
| AttrBS (bs : list string)
| AttrL (l : list AttributeValue)
| AttrM (m : list (string * AttributeValue)).

Definition AttributeMap : Type := list (string * AttributeValue).

(** ** The scripting variant *)

Module TS.

(** *** JavaScript values

    Numbers are carried as their literal text: the handler never computes
    with them. [JNative] stands for a function supplied by the runtime
    (a prototype method). *)

#[warnings="-register-all"]
Inductive JsValue : Type :=
| JUndefined
| JNull
| JBool (b : bool)
| JNumber (literal : string)
| JString (s : string)
| JArray (items : list JsValue)
| JObject (props : list (string * JsValue))
| JNative (name : string).

(** *** Thrown values

    Modelled from the spec: the module [./errors] that declares
    [NoPersonFoundError] and [NoLabelsFoundError] is not part of the
    sources at hand; the specification names exactly these two classes and
    no subclass of either. Every other class is told apart by its name. *)

Inductive ErrorClass : Type :=
| NoPersonFoundError
| NoLabelsFoundError
| Error
| TypeError
| SyntaxError
| OtherError (name : string).

Record Thrown : Type := mkThrown { err_class : ErrorClass; err_message : string }.

Definition ErrorClass_eqb (a b : ErrorClass) : bool :=
  match a, b with
  | NoPersonFoundError, NoPersonFoundError => true
  | NoLabelsFoundError, NoLabelsFoundError => true
  | Error, Error => true
  | TypeError, TypeError => true
  | SyntaxError, SyntaxError => true
  | OtherError n, OtherError m => String.eqb n m
  | _, _ => false
  end.

(** [error instanceof C] *)
Definition instanceof (error : Thrown) (C : ErrorClass) : bool :=
  ErrorClass_eqb (err_class error) C.

(** *** Stream records ([aws-lambda] typings; the fields the handler reads
    are optional in the typings, which is why the source asserts them) *)

Record StreamRecord : Type := mkStreamRecord {
  Keys : option AttributeMap;
  NewImage : option AttributeMap;
  OldImage : option AttributeMap
}.

Record DynamoDBRecord : Type := mkDynamoDBRecord {
  eventID : option string;
  eventName : option string;
  dynamodb : option StreamRecord
}.

Record DynamoDBStreamEvent : Type := mkDynamoDBStreamEvent {
  Records : list DynamoDBRecord
}.

(** *** Responses of the two AWS clients *)

Record GetSecretValueResponse : Type := mkGetSecretValueResponse {
  SecretString : option string
}.

Record SsmParameter : Type := mkSsmParameter {
  Value : option string
}.

Record GetParameterResult : Type := mkGetParameterResult {
  Parameter_ : option SsmParameter
}.

(** *** Calls made to the collaborators *)

Inductive Event : Type :=
| EvGetLabels (bucket : string) (fileId userId transformedFileKey : JsValue)
| EvLoggerWarn (message : string)
| EvSsmSend (Name : string)
| EvSecretsSend (SecretId : string)
| EvReportImageIssue (fileId userId apiUrl apiKey : JsValue).

Definition History : Type := list Event.

(** Counting the calls of one kind in a history *)

Definition is_labeling_call (ev : Event) : bool :=
  match ev with EvGetLabels _ _ _ _ => true | _ => false end.

Definition is_parameter_read (ev : Event) : bool :=
  match ev with EvSsmSend _ => true | _ => false end.

Definition is_secret_read (ev : Event) : bool :=
  match ev with EvSecretsSend _ => true | _ => false end.

Definition is_report_call (ev : Event) : bool :=
  match ev with EvReportImageIssue _ _ _ _ => true | _ => false end.

Definition count (kind : Event -> bool) (h : History) : nat :=
  length (filter kind h).

(** *** The runtime: environment, library functions and collaborators

    [getLabels] and [reportImageIssue] live in [./utils], the two [send]
    functions are the AWS clients, [unmarshall], [JSON_parse] and
    [builtin_member] belong to the SDK and to the JavaScript runtime. None
    of them is code of the handler; each collaborator answers from the
    history of calls made before it. A promise that rejects is [Some e]
    or [inl e], one that resolves is [None] or [inr v]. *)

Record Runtime : Type := mkRuntime {
  BUCKET_NAME_FILES : option string;
  API_URL_PARAMETER_NAME : option string;
  API_KEY_SECRET_NAME : option string;
  unmarshall : option AttributeMap -> Thrown + JsValue;
  JSON_parse : string -> Thrown + JsValue;
  builtin_member : JsValue -> string -> JsValue;
  getLabels_impl : History -> string -> JsValue -> JsValue -> JsValue -> option Thrown;
  reportImageIssue_impl : History -> JsValue -> JsValue -> JsValue -> JsValue -> option Thrown;
  ssmClient_send : History -> string -> Thrown + GetParameterResult;
  secretsClient_send : History -> string -> Thrown + GetSecretValueResponse
}.

(** Collaborators are stateless when each answers a request the same way
    whatever was called before. *)
Definition stateless (rt : Runtime) : Prop :=
  (forall h h' bucket fileId userId key,
      getLabels_impl rt h bucket fileId userId key
      = getLabels_impl rt h' bucket fileId userId key)
  /\ (forall h h' fileId userId apiUrl apiKey,
         reportImageIssue_impl rt h fileId userId apiUrl apiKey
         = reportImageIssue_impl rt h' fileId userId apiUrl apiKey)
  /\ (forall h h' name, ssmClient_send rt h name = ssmClient_send rt h' name)
  /\ (forall h h' name, secretsClient_send rt h name = secretsClient_send rt h' name).

(** *** Asynchronous computations: history passing with rejection *)

Definition Async (A : Type) : Type := History -> History * (Thrown + A).

Definition ret {A} (a : A) : Async A := fun h => (h, inr a).

Definition throw {A} (e : Thrown) : Async A := fun h => (h, inl e).

Definition bind {A B} (c : Async A) (k : A -> Async B) : Async B :=
  fun h =>
    match c h with
    | (h', inr a) => k a h'
    | (h', inl e) => (h', inl e)
    end.

(** [try { c } catch (error) { handler error }] *)
Definition try_catch {A} (c : Async A) (handler : Thrown -> Async A) : Async A :=
  fun h =>
    match c h with
    | (h', inr a) => (h', inr a)
    | (h', inl e) => handler e h'
    end.

(** A synchronous expression that may throw. *)
Definition lift {A} (r : Thrown + A) : Async A := fun h => (h, r).

(** A call to a collaborator: the call is recorded, then answered. *)
Definition call {A} (ev : Event) (answer : History -> Thrown + A) : Async A :=
  fun h => (h ++ [ev], answer h).

Definition settle (r : option Thrown) : Thrown + unit :=
  match r with
  | Some e => inl e
  | None => inr tt
  end.

(** A computation is uniform when, started from any history, it makes the
    calls and reaches the outcome it has when started from the empty one. *)
Definition uniform {A} (c : Async A) : Prop :=
  forall h, c h = (h ++ fst (c []), snd (c [])).

Declare Scope async_scope.
Delimit Scope async_scope with async.
Notation "x <- c ;; k" := (bind c (fun x => k))
  (at level 61, c at next level, right associativity) : async_scope.
Notation "c ;;; k" := (bind c (fun _ => k))
  (at level 61, right associativity) : async_scope.
Local Open Scope async_scope.

Section Handler.

Variable rt : Runtime.

(** [process.env.X || ''] *)
Definition or_empty (v : option string) : string :=
  match v with
  | Some s => s
  | None => ""
  end.

Definition s3BucketFiles : string := or_empty (BUCKET_NAME_FILES rt).
Definition apiUrlParameterName : string := or_empty (API_URL_PARAMETER_NAME rt).
Definition apiKeySecretName : string := or_empty (API_KEY_SECRET_NAME rt).

(** [!s] for [s : string | undefined] *)
Definition is_falsy (s : option string) : bool :=
  match s with
  | None => true
  | Some v => String.eqb v ""
  end.

(** A value of a store is missing when it is absent or empty. *)
Definition missing (s : option string) : Prop :=
  s = None \/ s = Some "".

(** Member access [v[name]]. Reading a member of [undefined] or [null]
    throws; a plain object answers with its own property when it has one;
    everything else (prototype methods, array elements, string indices)
    is the runtime's business. *)
Definition js_get (v : JsValue) (name : string) : Thrown + JsValue :=
  match v with
  | JUndefined =>
      inl (mkThrown TypeError
             ("Cannot read properties of undefined (reading '" ++ name ++ "')"))
  | JNull =>
      inl (mkThrown TypeError
             ("Cannot read properties of null (reading '" ++ name ++ "')"))
  | JObject props =>
      match assoc name props with
      | Some x => inr x
      | None => inr (builtin_member rt v name)
      end
  | _ => inr (builtin_member rt v name)
  end.

(** [getSecret], index.ts lines 23-34. Past the test [!secret] the string
    is present and not empty; [or_empty] then only unwraps it. *)
Definition getSecret (secretName : string) : Async JsValue :=
  response <- call (EvSecretsSend secretName)
                   (fun h => secretsClient_send rt h secretName) ;;
  let secret := SecretString response in
  if is_falsy secret then
    throw (mkThrown Error ("Unable to get secret " ++ secretName))
  else
    parsed <- lift (JSON_parse rt (or_empty secret)) ;;
    lift (js_get parsed secretName).

(** [response.Parameter?.Value] *)
Definition optional_Value (p : option SsmParameter) : option string :=
  match p with
  | None => None
  | Some prm => Value prm
  end.

(** [getParameter], index.ts lines 36-49 *)
Definition getParameter (parameterPath : string) : Async JsValue :=
  response <- call (EvSsmSend parameterPath)
                   (fun h => ssmClient_send rt h parameterPath) ;;
  let parameter := optional_Value (Parameter_ response) in
  if is_falsy parameter then
    throw (mkThrown Error ("Unable to get parameter " ++ parameterPath))
  else
    parsed <- lift (JSON_parse rt (or_empty parameter)) ;;
    lift (js_get parsed parameterPath).

Definition getLabels (bucket : string) (fileId userId transformedFileKey : JsValue)
  : Async unit :=
  call (EvGetLabels bucket fileId userId transformedFileKey)
       (fun h => settle (getLabels_impl rt h bucket fileId userId transformedFileKey)).

Definition reportImageIssue (fileId userId apiUrl apiKey : JsValue) : Async unit :=
  call (EvReportImageIssue fileId userId apiUrl apiKey)
       (fun h => settle (reportImageIssue_impl rt h fileId userId apiUrl apiKey)).

Definition logger_warn (message : string) : Async unit :=
  call (EvLoggerWarn message) (fun _ => inr tt).

(** [record.dynamodb!.NewImage!]: the assertions compile to nothing, so the
    member read on a missing [dynamodb] throws and a missing [NewImage] is
    passed on as [undefined]. *)
Definition read_NewImage (record : DynamoDBRecord) : Thrown + option AttributeMap :=
  match dynamodb record with
  | None =>
      inl (mkThrown TypeError
             "Cannot read properties of undefined (reading 'NewImage')")
  | Some sr => inr (NewImage sr)
  end.

(** index.ts lines 54-57: the three values handed to the labeling call *)
Definition decode (record : DynamoDBRecord) : Thrown + (JsValue * JsValue * JsValue) :=
  match read_NewImage record with
  | inl e => inl e
  | inr image =>
      match unmarshall rt image with
      | inl e => inl e
      | inr data =>
          match js_get data "id" with
          | inl e => inl e
          | inr fileId =>
              match js_get data "userId" with
              | inl e => inl e
              | inr userId =>
                  match js_get data "transformedFileKey" with
                  | inl e => inl e
                  | inr transformedFileKey => inr (fileId, userId, transformedFileKey)
                  end
              end
          end
      end
  end.

(** The member of a plain object under a name *)
Definition member (props : list (string * JsValue)) (name : string) : JsValue :=
  match assoc name props with
  | Some x => x
  | None => builtin_member rt (JObject props) name
  end.

(** The test of the [catch] clause, index.ts lines 64-67 *)
Definition is_soft_failure (error : Thrown) : bool :=
  instanceof error NoPersonFoundError || instanceof error NoLabelsFoundError.

(** The body of the [catch] clause, index.ts lines 62-78 *)
Definition on_labeling_error (fileId userId : JsValue) (error : Thrown) : Async unit :=
  if is_soft_failure error then
    logger_warn "No person found in the image" ;;;
    apiUrl <- getParameter apiUrlParameterName ;;
    apiKey <- getSecret apiKeySecretName ;;
    reportImageIssue fileId userId apiUrl apiKey ;;;
    ret tt
  else
    throw error.

(** [recordHandler], index.ts lines 51-79 *)
Definition recordHandler (record : DynamoDBRecord) : Async unit :=
  fields <- lift (decode record) ;;
  let '(fileId, userId, transformedFileKey) := fields in
  try_catch
    (getLabels s3BucketFiles fileId userId transformedFileKey)
    (on_labeling_error fileId userId).

(** The [for ... of] loop of the exported handler, index.ts lines 85-91 *)
Fixpoint process_records (records : list DynamoDBRecord) : Async unit :=
  match records with
  | [] => ret tt
  | record :: rest =>
      try_catch (recordHandler record)
                (fun _ => throw (mkThrown Error "Error processing record")) ;;;
      process_records rest
  end.

(** [handler], index.ts lines 81-93; the two middlewares only trace and
    log around it. *)
Definition handler (event : DynamoDBStreamEvent) : Async unit :=
  process_records (Records event).

End Handler.

End TS.

(** ** The managed-runtime variant *)

Module Java.

(** A Java reference may be [null]: references the handler does not know
    to be non-null are options. *)

(** *** Throwables

    Modelled from the spec: the class [ImageDetectionException] and the
    exceptions that [Utils.getLabels] raises are declared in files that
    are not part of the sources at hand. The specification has exactly two
    soft failure kinds (no person, no labels); they are taken to be the two
    kinds of [ImageDetectionException]. *)

Inductive ExceptionClass : Type :=
| NoPersonFoundException
| NoLabelsFoundException
| NullPointerException
| OtherException (name : string).

Record Throwable : Type := mkThrowable {
  exc_class : ExceptionClass;
  exc_message : option string
}.

(** The test of [catch (ImageDetectionException e)] *)
Definition is_ImageDetectionException (e : Throwable) : bool :=
  match exc_class e with
  | NoPersonFoundException | NoLabelsFoundException => true
  | _ => false
  end.

(** *** Stream records ([aws-lambda-java-events]) *)

Record StreamRecord : Type := mkStreamRecord {
  getNewImage : option AttributeMap
}.

Record DynamodbStreamRecord : Type := mkDynamodbStreamRecord {
  getDynamodb : option StreamRecord
}.

(** [AttributeValue.getS()] *)
Definition getS (a : AttributeValue) : option string :=
  match a with
  | AttrS s => Some s
  | _ => None
  end.

(** A record carries its change payload when [getDynamodb()] and
    [getNewImage()] are not null and the image has the three attributes
    that the handler reads. *)
Definition carries_payload (r : DynamodbStreamRecord) : bool :=
  match getDynamodb r with
  | Some sr =>
      match getNewImage sr with
      | Some image =>
          match assoc "id" image, assoc "userId" image,
                assoc "transformedFileKey" image with
          | Some _, Some _, Some _ => true
          | _, _, _ => false
          end
      | None => false
      end
  | None => false
  end.

(** *** Calls made to the collaborators

    A lookup through a parameter provider ([EvProviderGet]) is told apart
    from the read of the backing store that the provider performs when it
    holds no fresh value ([EvStoreRead]). *)

Inductive ProviderKind : Type := Ssm | Secrets.

Inductive Event : Type :=
| EvAppendKey (key : string) (value : option string)
| EvRemoveKey (key : string)
| EvGetLabels (bucket fileId userId transformedFileKey : option string)
| EvLoggerWarn (message : string)
| EvProviderGet (p : ProviderKind) (maxAge : Z) (key : option string)
| EvStoreRead (p : ProviderKind) (key : string)
| EvReportImageIssue (fileId userId apiUrl apiKey : option string).

Definition History : Type := list Event.

(** Counting the calls of one kind in a history *)

Definition is_store_read (p : ProviderKind) (ev : Event) : bool :=
  match ev, p with
  | EvStoreRead Ssm _, Ssm => true
  | EvStoreRead Secrets _, Secrets => true
  | _, _ => false
  end.

Definition is_lookup_or_report (ev : Event) : bool :=
  match ev with
  | EvProviderGet _ _ _ | EvReportImageIssue _ _ _ _ => true
  | _ => false
  end.

Definition count (kind : Event -> bool) (h : History) : nat :=
  length (filter kind h).

(** *** Parameter providers

    [ParamManager], [SSMProvider] and [SecretsProvider] belong to the
    Powertools parameters library, not to the handler. The model follows
    the library's documented contract: [withMaxAge(d)] asks for values at
    most [d] old; [get(key)] answers from the provider's cache while the
    cached value has not expired, and otherwise reads the store, keeps the
    value until [now + d] and returns it. The providers are static fields,
    so their caches outlive a single record. Times are in seconds. *)

Record Entry : Type := mkEntry { entry_value : string; entry_expiry : Z }.

Definition CacheStore : Type := list (string * Entry).

Record State : Type := mkState {
  history : History;
  ssmCache : CacheStore;
  secretsCache : CacheStore
}.

Definition cache_of (p : ProviderKind) (st : State) : CacheStore :=
  match p with
  | Ssm => ssmCache st
  | Secrets => secretsCache st
  end.

Definition put_in_cache (p : ProviderKind) (key : string) (e : Entry) (st : State) : State :=
  match p with
  | Ssm => mkState (history st) ((key, e) :: ssmCache st) (secretsCache st)
  | Secrets => mkState (history st) (ssmCache st) ((key, e) :: secretsCache st)
  end.

Definition record_event (ev : Event) (st : State) : State :=
  mkState (history st ++ [ev]) (ssmCache st) (secretsCache st).

(** The state once the two logging keys are set, and once they are
    removed again. *)
Definition labeled (fileId userId : option string) (st : State) : State :=
  record_event (EvAppendKey "userId" userId)
    (record_event (EvAppendKey "fileId" fileId) st).

Definition keys_removed (st : State) : State :=
  record_event (EvRemoveKey "userId") (record_event (EvRemoveKey "fileId") st).

(** *** The runtime *)

Record Runtime : Type := mkRuntime {
  BUCKET_NAME_FILES : option string;
  API_URL_PARAMETER_NAME : option string;
  API_KEY_SECRET_NAME : option string;
  getLabels_impl :
    History -> option string -> option string -> option string -> option string ->
    option Throwable;
  reportImageIssue_impl :
    History -> option string -> option string -> option string -> option string ->
    option Throwable;
  store_getValue : ProviderKind -> History -> string -> Throwable + string;
  clock : History -> Z
}.

(** *** Computations: state passing with exceptions *)

Definition Exec (A : Type) : Type := State -> State * (Throwable + A).

Definition ret {A} (a : A) : Exec A := fun st => (st, inr a).

Definition throw {A} (e : Throwable) : Exec A := fun st => (st, inl e).

Definition bind {A B} (c : Exec A) (k : A -> Exec B) : Exec B :=
  fun st =>
    match c st with
    | (st', inr a) => k a st'
    | (st', inl e) => (st', inl e)
    end.

(** [try { c } catch (ImageDetectionException e) { handler e }] *)
Definition try_catch_ImageDetection {A} (c : Exec A) (handler : Throwable -> Exec A)
  : Exec A :=
  fun st =>
    match c st with
    | (st', inr a) => (st', inr a)
    | (st', inl e) =>
        if is_ImageDetectionException e then handler e st' else (st', inl e)
    end.

(** [try { c } finally { f }]: [f] runs however [c] ends; when [f]
    completes normally the outcome of [c] stands. *)
Definition try_finally {A} (c : Exec A) (f : Exec unit) : Exec A :=
  fun st =>
    match c st with
    | (st', r) =>
        match f st' with
        | (st'', inr _) => (st'', r)
        | (st'', inl e) => (st'', inl e)
        end
    end.

Definition call {A} (ev : Event) (answer : History -> Throwable + A) : Exec A :=
  fun st => (record_event ev st, answer (history st)).

Definition settle (r : option Throwable) : Throwable + unit :=
  match r with
  | Some e => inl e
  | None => inr tt
  end.

Definition NPE : Throwable := mkThrowable NullPointerException None.

(** Dereferencing a reference *)
Definition deref {A} (r : option A) : Exec A :=
  match r with
  | Some a => ret a
  | None => throw NPE
  end.

Declare Scope exec_scope.
Delimit Scope exec_scope with exec.
Notation "x <- c ;; k" := (bind c (fun x => k))
  (at level 61, c at next level, right associativity) : exec_scope.
Notation "c ;;; k" := (bind c (fun _ => k))
  (at level 61, right associativity) : exec_scope.
Local Open Scope exec_scope.

Section Handler.

Variable rt : Runtime.

Definition fresh_entry (now : Z) (c : CacheStore) (key : string) : option string :=
  match assoc key c with
  | Some e => if (now <? entry_expiry e)%Z then Some (entry_value e) else None
  | None => None
  end.

(** [provider.withMaxAge(maxAge, SECONDS).get(key)] *)
Definition provider_get (p : ProviderKind) (maxAge : Z) (key : option string)
  : Exec string :=
  fun st =>
    let st1 := record_event (EvProviderGet p maxAge key) st in
    match key with
    | None => (st1, inl NPE)
    | Some k =>
        match fresh_entry (clock rt (history st1)) (cache_of p st1) k with
        | Some v => (st1, inr v)
        | None =>
            let st2 := record_event (EvStoreRead p k) st1 in
            match store_getValue rt p (history st1) k with
            | inl e => (st2, inl e)
            | inr v =>
                (put_in_cache p k (mkEntry v (clock rt (history st2) + maxAge)) st2,
                 inr v)
            end
        end
    end.

Definition getLabels (bucket fileId userId transformedFileKey : option string)
  : Exec unit :=
  call (EvGetLabels bucket fileId userId transformedFileKey)
       (fun h => settle (getLabels_impl rt h bucket fileId userId transformedFileKey)).

Definition reportImageIssue (fileId userId apiUrl apiKey : option string) : Exec unit :=
  call (EvReportImageIssue fileId userId apiUrl apiKey)
       (fun h => settle (reportImageIssue_impl rt h fileId userId apiUrl apiKey)).

Definition LOGGER_warn (message : string) : Exec unit :=
  call (EvLoggerWarn message) (fun _ => inr tt).

Definition appendKey (key : string) (value : option string) : Exec unit :=
  call (EvAppendKey key value) (fun _ => inr tt).

Definition removeKey (key : string) : Exec unit :=
  call (EvRemoveKey key) (fun _ => inr tt).

(** [data.get(name).getS()] *)
Definition get_S (data : option AttributeMap) (name : string) : Exec (option string) :=
  m <- deref data ;;
  a <- deref (assoc name m) ;;
  ret (getS a).

(** Lines 57-60: the three strings read from the new image *)
Definition decode (r : DynamodbStreamRecord)
  : Exec (option string * option string * option string) :=
  sr <- deref (getDynamodb r) ;;
  let data := getNewImage sr in
  fileId <- get_S data "id" ;;
  userId <- get_S data "userId" ;;
  transformedFileKey <- get_S data "transformedFileKey" ;;
  ret (fileId, userId, transformedFileKey).

(** The body of the [catch] clause, lines 69-75 *)
Definition on_image_detection (fileId userId : option string) (e : Throwable)
  : Exec unit :=
  LOGGER_warn "No person found in the image" ;;;
  apiUrl <- provider_get Ssm 900 (API_URL_PARAMETER_NAME rt) ;;
  apiKey <- provider_get Secrets 900 (API_KEY_SECRET_NAME rt) ;;
  reportImageIssue fileId userId (Some apiUrl) (Some apiKey).

(** The [finally] clause, lines 76-80 *)
Definition remove_keys : Exec unit :=
  removeKey "fileId" ;;;
  removeKey "userId".

(** [processMessage], lines 54-81 *)
Definition processMessage (r : DynamodbStreamRecord) : Exec unit :=
  fields <- decode r ;;
  let '(fileId, userId, transformedFileKey) := fields in
  appendKey "fileId" fileId ;;;
  appendKey "userId" userId ;;;
  try_finally
    (try_catch_ImageDetection
       (getLabels (BUCKET_NAME_FILES rt) fileId userId transformedFileKey)
       (on_image_detection fileId userId))
    remove_keys.

End Handler.

End Java.

(** ** Example runtimes

    Concrete collaborators on which the handlers can be run. *)

Module TSExamples.
Import TS.

(** The double-quote character and the text of a JSON document with one
    string-valued entry, [{"k":"v"}]. *)
Definition dquote : string := String (Ascii.ascii_of_nat 34) EmptyString.

Definition json_entry (k v : string) : string :=
  "{" ++ dquote ++ k ++ dquote ++ ":" ++ dquote ++ v ++ dquote ++ "}".

Definition url_name : string := "/workshop/api-url".
Definition key_name : string := "workshop/api-key".

(** The documents that the example stores hold, with their parses; text
    outside this table plays the part of malformed JSON. *)
Definition example_JSON_parse (text : string) : Thrown + JsValue :=
  if String.eqb text (json_entry url_name "https://api.example.com") then
    inr (JObject [(url_name, JString "https://api.example.com")])
  else if String.eqb text (json_entry key_name "s3cr3t") then
    inr (JObject [(key_name, JString "s3cr3t")])
  else if String.eqb text (json_entry "url" "https://api.example.com") then
    inr (JObject [("url", JString "https://api.example.com")])
  else
    inl (mkThrown SyntaxError "Unexpected token in JSON").

(** The members every plain object inherits from [Object.prototype]. *)
Definition object_prototype_members : list string :=
  ["constructor"; "hasOwnProperty"; "isPrototypeOf"; "propertyIsEnumerable";
   "toLocaleString"; "toString"; "valueOf"; "__proto__";
   "__defineGetter__"; "__defineSetter__"; "__lookupGetter__"; "__lookupSetter__"].

Definition example_builtin_member (v : JsValue) (name : string) : JsValue :=
  match v with
  | JObject _ =>
      if existsb (String.eqb name) object_prototype_members
      then JNative name else JUndefined
  | _ => JUndefined
  end.

(** Attribute values as native values, for the attribute kinds that occur
    in the examples; binary and set attributes are left opaque. *)
Fixpoint to_native (a : AttributeValue) : JsValue :=
  match a with
  | AttrS s => JString s
  | AttrN n => JNumber n
  | AttrBOOL b => JBool b
  | AttrNULL => JNull
  | AttrL l => JArray (map to_native l)
  | AttrM m => JObject (map (fun kv => (fst kv, to_native (snd kv))) m)
  | AttrB _ => JNative "Uint8Array"
  | AttrSS _ | AttrNS _ | AttrBS _ => JNative "Set"
  end.

Definition example_unmarshall (image : option AttributeMap) : Thrown + JsValue :=
  match image with
  | None => inl (mkThrown Error "No value defined: {}")
  | Some m => inr (to_native (AttrM m))
  end.

(** The labeling service of the examples answers by file id. *)
Definition example_getLabels (h : History) (bucket : string)
           (fileId userId transformedFileKey : JsValue) : option Thrown :=
  match fileId with
  | JString "no-person" => Some (mkThrown NoPersonFoundError "No person found")
  | JString "no-labels" => Some (mkThrown NoLabelsFoundError "No labels found")
  | JString "denied" => Some (mkThrown (OtherError "AccessDeniedException") "Access denied")
  | _ => None
  end.

Definition example_ssm (h : History) (name : string) : Thrown + GetParameterResult :=
  if String.eqb name url_name then
    inr (mkGetParameterResult
           (Some (mkSsmParameter (Some (json_entry url_name "https://api.example.com")))))
  else
    inl (mkThrown (OtherError "ParameterNotFound") name).

Definition example_secrets (h : History) (name : string) : Thrown + GetSecretValueResponse :=
  if String.eqb name key_name then
    inr (mkGetSecretValueResponse (Some (json_entry key_name "s3cr3t")))
  else
    inl (mkThrown (OtherError "ResourceNotFoundException") name).

Definition example_rt : Runtime :=
  mkRuntime (Some "files") (Some url_name) (Some key_name)
            example_unmarshall example_JSON_parse example_builtin_member
            example_getLabels (fun _ _ _ _ _ => None)
            example_ssm example_secrets.

(** The same runtime with other stores behind the two clients. *)
Definition with_stores
           (ssm : History -> string -> Thrown + GetParameterResult)
           (secrets : History -> string -> Thrown + GetSecretValueResponse) : Runtime :=
  mkRuntime (Some "files") (Some url_name) (Some key_name)
            example_unmarshall example_JSON_parse example_builtin_member
            example_getLabels (fun _ _ _ _ _ => None)
            ssm secrets.

(** Stores whose answers the lookups cannot use: a response without a
    parameter, an empty secret string, a document that has no entry under
    the lookup name, and a value stored as plain text. *)
Definition ssm_without_parameter (h : History) (name : string)
  : Thrown + GetParameterResult :=
  inr (mkGetParameterResult None).

Definition secrets_with_empty_string (h : History) (name : string)
  : Thrown + GetSecretValueResponse :=
  inr (mkGetSecretValueResponse (Some "")).

Definition ssm_with_other_key (h : History) (name : string)
  : Thrown + GetParameterResult :=
  inr (mkGetParameterResult
         (Some (mkSsmParameter (Some (json_entry "url" "https://api.example.com"))))).

Definition secrets_with_plain_text (h : History) (name : string)
  : Thrown + GetSecretValueResponse :=
  inr (mkGetSecretValueResponse (Some "s3cr3t")).

Definition rt_missing_parameter : Runtime :=
  with_stores ssm_without_parameter example_secrets.

Definition rt_missing_secret : Runtime :=
  with_stores example_ssm secrets_with_empty_string.

Definition rt_other_key_plain_secret : Runtime :=
  with_stores ssm_with_other_key secrets_with_plain_text.

Definition image_of (fileId : string) : AttributeMap :=
  [("id", AttrS fileId); ("userId", AttrS "user-1");
   ("transformedFileKey", AttrS ("transformed/" ++ fileId ++ ".jpg"))].

Definition record_of (fileId : string) : DynamoDBRecord :=
  mkDynamoDBRecord (Some fileId) (Some "MODIFY")
                   (Some (mkStreamRecord None (Some (image_of fileId)) None)).

Definition labels_call (fileId : string) : Event :=
  EvGetLabels "files" (JString fileId) (JString "user-1")
              (JString ("transformed/" ++ fileId ++ ".jpg")).

Definition report_call (fileId : string) : Event :=
  EvReportImageIssue (JString fileId) (JString "user-1")
                     (JString "https://api.example.com") (JString "s3cr3t").

Definition warn_call : Event := EvLoggerWarn "No person found in the image".

End TSExamples.

Module JavaExamples.
Import Java.

Definition url_name : string := "/workshop/api-url".
Definition key_name : string := "workshop/api-key".

(** The labeling service of the examples answers by file id. *)
Definition example_getLabels (h : History)
           (bucket fileId userId transformedFileKey : option string) : option Throwable :=
  match fileId with
  | Some "no-person" => Some (mkThrowable NoPersonFoundException (Some "No person found"))
  | Some "no-labels" => Some (mkThrowable NoLabelsFoundException (Some "No labels found"))
  | Some "denied" =>
      Some (mkThrowable (OtherException "AccessDeniedException") (Some "Access denied"))
  | _ => None
  end.

Definition example_store (p : ProviderKind) (h : History) (key : string)
  : Throwable + string :=
  match p with
  | Ssm =>
      if String.eqb key url_name then inr "https://api.example.com"
      else inl (mkThrowable (OtherException "ParameterNotFoundException") (Some key))
  | Secrets =>
      if String.eqb key key_name then inr "s3cr3t"
      else inl (mkThrowable (OtherException "ResourceNotFoundException") (Some key))
  end.

(** A clock that advances by one second with every call made. *)
Definition example_clock (h : History) : Z := Z.of_nat (length h).

Definition example_rt : Runtime :=
  mkRuntime (Some "files") (Some url_name) (Some key_name)
            example_getLabels (fun _ _ _ _ _ => None)
            example_store example_clock.

Definition cold : State := mkState [] [] [].

Definition image_of (fileId : string) : AttributeMap :=
  [("id", AttrS fileId); ("userId", AttrS "user-1");
   ("transformedFileKey", AttrS ("transformed/" ++ fileId ++ ".jpg"))].

Definition record_of (fileId : string) : DynamodbStreamRecord :=
  mkDynamodbStreamRecord (Some (mkStreamRecord (Some (image_of fileId)))).

End JavaExamples.

(** ** Further example runtimes

    Collaborators that reject, documents that parse to [null], an
    environment without the three variables, and records with an
    incomplete image. *)

Module TSCases.
Import TS TSExamples.

Definition throttled : Thrown :=
  mkThrown (OtherError "ThrottlingException") "Rate exceeded".

Definition unreachable : Thrown :=
  mkThrown (OtherError "FetchError") "connect ECONNREFUSED".

Definition ssm_rejecting (h : History) (name : string) : Thrown + GetParameterResult :=
  inl throttled.

Definition secrets_rejecting (h : History) (name : string)
  : Thrown + GetSecretValueResponse :=
  inl throttled.

Definition ssm_with_null (h : History) (name : string) : Thrown + GetParameterResult :=
  inr (mkGetParameterResult (Some (mkSsmParameter (Some "null")))).

Definition secrets_with_null (h : History) (name : string)
  : Thrown + GetSecretValueResponse :=
  inr (mkGetSecretValueResponse (Some "null")).

(** The table of [example_JSON_parse], with the document [null]. *)
Definition JSON_parse_with_null (text : string) : Thrown + JsValue :=
  if String.eqb text "null" then inr JNull else example_JSON_parse text.

Definition rt_rejecting_ssm : Runtime :=
  with_stores ssm_rejecting example_secrets.

Definition rt_rejecting_secrets : Runtime :=
  with_stores example_ssm secrets_rejecting.

Definition rt_rejecting_report : Runtime :=
  mkRuntime (Some "files") (Some url_name) (Some key_name)
            example_unmarshall example_JSON_parse example_builtin_member
            example_getLabels (fun _ _ _ _ _ => Some unreachable)
            example_ssm example_secrets.

Definition rt_null_documents : Runtime :=
  mkRuntime (Some "files") (Some url_name) (Some key_name)
            example_unmarshall JSON_parse_with_null example_builtin_member
            example_getLabels (fun _ _ _ _ _ => None)
            ssm_with_null secrets_with_null.

Definition rt_other_key : Runtime :=
  with_stores ssm_with_other_key example_secrets.

(** No environment variable is set; the parameter store knows no
    parameter of the empty name. *)
Definition rt_unset_environment : Runtime :=
  mkRuntime None None None
            example_unmarshall example_JSON_parse example_builtin_member
            example_getLabels (fun _ _ _ _ _ => None)
            ssm_without_parameter example_secrets.

(** A record whose image has no attribute [id]. *)
Definition record_without_id : DynamoDBRecord :=
  mkDynamoDBRecord (Some "e-1") (Some "MODIFY")
    (Some (mkStreamRecord None
             (Some [("userId", AttrS "user-1");
                    ("transformedFileKey", AttrS "transformed/x.jpg")])
             None)).

End TSCases.

Module JavaCases.
Import Java JavaExamples.

(** Runtimes whose configured names the stores do not know. *)
Definition rt_unknown_parameter : Runtime :=
  mkRuntime (Some "files") (Some "/workshop/unknown") (Some key_name)
            example_getLabels (fun _ _ _ _ _ => None)
            example_store example_clock.

Definition rt_unknown_secret : Runtime :=
  mkRuntime (Some "files") (Some url_name) (Some "workshop/unknown")
            example_getLabels (fun _ _ _ _ _ => None)
            example_store example_clock.

Definition refused : Throwable :=
  mkThrowable (OtherException "IOException") (Some "Connection refused").

Definition rt_rejecting_report : Runtime :=
  mkRuntime (Some "files") (Some url_name) (Some key_name)
            example_getLabels (fun _ _ _ _ _ => Some refused)
            example_store example_clock.

End JavaCases.

(** ** Facts about the scripting variant *)

Module TSFacts.
Import TS.
Local Open Scope async_scope.

Lemma count_app (kind : Event -> bool) (h1 h2 : History) :
  count kind (h1 ++ h2) = count kind h1 + count kind h2.
Proof.
  unfold count. rewrite filter_app, length_app. reflexivity.
Qed.

Lemma is_falsy_missing (s : option string) :
  is_falsy s = true <-> missing s.
Proof.
  unfold is_falsy, missing. destruct s as [v |].
  - split.
    + intros H. apply String.eqb_eq in H. right. congruence.
    + intros [H | H]; [discriminate |]. injection H as ->. reflexivity.
  - split; auto.
Qed.

Section Runs.

Variable rt : Runtime.

(** *** The two lookups *)

Lemma getParameter_history (name : string) (h : History) :
  fst (getParameter rt name h) = h ++ [EvSsmSend name].
Proof.
  unfold getParameter, bind, call, throw, lift.
  destruct (ssmClient_send rt h name) as [e | response]; [reflexivity |].
  destruct (is_falsy (optional_Value (Parameter_ response))); [reflexivity |].
  destruct (JSON_parse rt _); reflexivity.
Qed.

Lemma getSecret_history (name : string) (h : History) :
  fst (getSecret rt name h) = h ++ [EvSecretsSend name].
Proof.
  unfold getSecret, bind, call, throw, lift.
  destruct (secretsClient_send rt h name) as [e | response]; [reflexivity |].
  destruct (is_falsy (SecretString response)); [reflexivity |].
  destruct (JSON_parse rt _); reflexivity.
Qed.

Lemma getParameter_run (name : string) (h : History) :
  getParameter rt name h = (h ++ [EvSsmSend name], snd (getParameter rt name h)).
Proof.
  rewrite <- getParameter_history. destruct (getParameter rt name h); reflexivity.
Qed.

Lemma getSecret_run (name : string) (h : History) :
  getSecret rt name h = (h ++ [EvSecretsSend name], snd (getSecret rt name h)).
Proof.
  rewrite <- getSecret_history. destruct (getSecret rt name h); reflexivity.
Qed.

(** What a lookup answers, by cases on what the store sent back. *)

Lemma getParameter_rejected (name : string) (h : History) (e : Thrown) :
  ssmClient_send rt h name = inl e ->
  snd (getParameter rt name h) = inl e.
Proof.
  intros Hsend. unfold getParameter, bind, call. rewrite Hsend. reflexivity.
Qed.

Lemma getParameter_missing (name : string) (h : History) (response : GetParameterResult) :
  ssmClient_send rt h name = inr response ->
  is_falsy (optional_Value (Parameter_ response)) = true ->
  snd (getParameter rt name h)
  = inl (mkThrown Error ("Unable to get parameter " ++ name)).
Proof.
  intros Hsend Hfalsy. unfold getParameter, bind, call.
  rewrite Hsend, Hfalsy. reflexivity.
Qed.

Lemma getParameter_present (name : string) (h : History)
      (response : GetParameterResult) (text : string) :
  ssmClient_send rt h name = inr response ->
  optional_Value (Parameter_ response) = Some text ->
  text <> "" ->
  snd (getParameter rt name h)
  = match JSON_parse rt text with
    | inl e => inl e
    | inr parsed => js_get rt parsed name
    end.
Proof.
  intros Hsend Hvalue Hnonempty. unfold getParameter, bind, call, lift.
  rewrite Hsend, Hvalue. simpl.
  destruct (String.eqb_spec text ""); [contradiction |].
  destruct (JSON_parse rt text); reflexivity.
Qed.

Lemma getSecret_rejected (name : string) (h : History) (e : Thrown) :
  secretsClient_send rt h name = inl e ->
  snd (getSecret rt name h) = inl e.
Proof.
  intros Hsend. unfold getSecret, bind, call. rewrite Hsend. reflexivity.
Qed.

Lemma getSecret_missing (name : string) (h : History) (response : GetSecretValueResponse) :
  secretsClient_send rt h name = inr response ->
  is_falsy (SecretString response) = true ->
  snd (getSecret rt name h)
  = inl (mkThrown Error ("Unable to get secret " ++ name)).
Proof.
  intros Hsend Hfalsy. unfold getSecret, bind, call.
  rewrite Hsend, Hfalsy. reflexivity.
Qed.

Lemma getSecret_present (name : string) (h : History)
      (response : GetSecretValueResponse) (text : string) :
  secretsClient_send rt h name = inr response ->
  SecretString response = Some text ->
  text <> "" ->
  snd (getSecret rt name h)
  = match JSON_parse rt text with
    | inl e => inl e
    | inr parsed => js_get rt parsed name
    end.
Proof.
  intros Hsend Hvalue Hnonempty. unfold getSecret, bind, call, lift.
  rewrite Hsend, Hvalue. simpl.
  destruct (String.eqb_spec text ""); [contradiction |].
  destruct (JSON_parse rt text); reflexivity.
Qed.

(** *** Decoding *)

Lemma decode_without_dynamodb (record : DynamoDBRecord) :
  dynamodb record = None ->
  decode rt record
  = inl (mkThrown TypeError "Cannot read properties of undefined (reading 'NewImage')").
Proof.
  intros Hnone. unfold decode, read_NewImage. rewrite Hnone. reflexivity.
Qed.

Lemma decode_rejected_image (record : DynamoDBRecord) (sr : StreamRecord) (e : Thrown) :
  dynamodb record = Some sr ->
  unmarshall rt (NewImage sr) = inl e ->
  decode rt record = inl e.
Proof.
  intros Hsome Hreject. unfold decode, read_NewImage. rewrite Hsome, Hreject.
  reflexivity.
Qed.

Lemma decode_object (record : DynamoDBRecord) (sr : StreamRecord)
      (props : list (string * JsValue)) :
  dynamodb record = Some sr ->
  unmarshall rt (NewImage sr) = inr (JObject props) ->
  decode rt record
  = inr (member rt props "id", member rt props "userId",
         member rt props "transformedFileKey").
Proof.
  intros Hsome Hobject. unfold decode, read_NewImage, member, js_get.
  rewrite Hsome, Hobject.
  destruct (assoc "id" props), (assoc "userId" props),
    (assoc "transformedFileKey" props); reflexivity.
Qed.

(** *** The record handler, one step at a time *)

Lemma recordHandler_decoded (record : DynamoDBRecord) (h : History)
      (fileId userId key : JsValue) :
  decode rt record = inr (fileId, userId, key) ->
  recordHandler rt record h
  = try_catch (getLabels rt (s3BucketFiles rt) fileId userId key)
              (on_labeling_error rt fileId userId) h.
Proof.
  intros Hdecode. unfold recordHandler, bind, lift. rewrite Hdecode. reflexivity.
Qed.

Lemma recordHandler_undecoded (record : DynamoDBRecord) (h : History) (e : Thrown) :
  decode rt record = inl e ->
  recordHandler rt record h = (h, inl e).
Proof.
  intros Hdecode. unfold recordHandler, bind, lift. rewrite Hdecode. reflexivity.
Qed.

Lemma recordHandler_labeled (record : DynamoDBRecord) (h : History)
      (fileId userId key : JsValue) :
  decode rt record = inr (fileId, userId, key) ->
  getLabels_impl rt h (s3BucketFiles rt) fileId userId key = None ->
  recordHandler rt record h
  = (h ++ [EvGetLabels (s3BucketFiles rt) fileId userId key], inr tt).
Proof.
  intros Hdecode Hlabels. rewrite (recordHandler_decoded _ _ _ _ _ Hdecode).
  unfold try_catch, getLabels, call. rewrite Hlabels. reflexivity.
Qed.

Lemma recordHandler_failed (record : DynamoDBRecord) (h : History)
      (fileId userId key : JsValue) (error : Thrown) :
  decode rt record = inr (fileId, userId, key) ->
  getLabels_impl rt h (s3BucketFiles rt) fileId userId key = Some error ->
  recordHandler rt record h
  = on_labeling_error rt fileId userId error
      (h ++ [EvGetLabels (s3BucketFiles rt) fileId userId key]).
Proof.
  intros Hdecode Hlabels. rewrite (recordHandler_decoded _ _ _ _ _ Hdecode).
  unfold try_catch, getLabels, call. rewrite Hlabels. reflexivity.
Qed.

Lemma on_labeling_error_hard (fileId userId : JsValue) (error : Thrown) (h : History) :
  is_soft_failure error = false ->
  on_labeling_error rt fileId userId error h = (h, inl error).
Proof.
  intros Hhard. unfold on_labeling_error. rewrite Hhard. reflexivity.
Qed.

Lemma recordHandler_hard (record : DynamoDBRecord) (h : History)
      (fileId userId key : JsValue) (error : Thrown) :
  decode rt record = inr (fileId, userId, key) ->
  getLabels_impl rt h (s3BucketFiles rt) fileId userId key = Some error ->
  is_soft_failure error = false ->
  recordHandler rt record h
  = (h ++ [EvGetLabels (s3BucketFiles rt) fileId userId key], inl error).
Proof.
  intros Hdecode Hlabels Hhard.
  rewrite (recordHandler_failed _ _ _ _ _ _ Hdecode Hlabels).
  apply on_labeling_error_hard. exact Hhard.
Qed.

(** The soft branch: the warning, then the parameter, then the secret,
    then the report; each step is reached only when the one before it
    returned. *)
Lemma on_labeling_error_soft (fileId userId : JsValue) (error : Thrown) (h : History) :
  is_soft_failure error = true ->
  let h1 := h ++ [EvLoggerWarn "No person found in the image"] in
  let h2 := h1 ++ [EvSsmSend (apiUrlParameterName rt)] in
  let h3 := h2 ++ [EvSecretsSend (apiKeySecretName rt)] in
  on_labeling_error rt fileId userId error h
  = match snd (getParameter rt (apiUrlParameterName rt) h1) with
    | inl e => (h2, inl e)
    | inr apiUrl =>
        match snd (getSecret rt (apiKeySecretName rt) h2) with
        | inl e => (h3, inl e)
        | inr apiKey =>
            (h3 ++ [EvReportImageIssue fileId userId apiUrl apiKey],
             settle (reportImageIssue_impl rt h3 fileId userId apiUrl apiKey))
        end
    end.
Proof.
  intros Hsoft h1 h2 h3. unfold on_labeling_error. rewrite Hsoft.
  unfold bind at 1. unfold logger_warn at 1, call at 1. fold h1.
  unfold bind at 1. rewrite getParameter_run. fold h2. simpl snd.
  destruct (snd (getParameter rt (apiUrlParameterName rt) h1)) as [e | apiUrl];
    [reflexivity |].
  unfold bind at 1. rewrite getSecret_run. fold h3. simpl snd.
  destruct (snd (getSecret rt (apiKeySecretName rt) h2)) as [e | apiKey];
    [reflexivity |].
  unfold bind, reportImageIssue, call, ret.
  destruct (reportImageIssue_impl rt h3 fileId userId apiUrl apiKey); reflexivity.
Qed.

(** *** The loop of the exported handler *)

Lemma process_records_continue (record : DynamoDBRecord) (rest : list DynamoDBRecord)
      (h h' : History) :
  recordHandler rt record h = (h', inr tt) ->
  process_records rt (record :: rest) h = process_records rt rest h'.
Proof.
  intros Hrun. simpl. unfold bind at 1, try_catch at 1. rewrite Hrun. reflexivity.
Qed.

(** What leaves the loop is a new error, not the one the record handler
    threw; the records after the failing one are not looked at. *)
Lemma process_records_abort (record : DynamoDBRecord) (rest : list DynamoDBRecord)
      (h h' : History) (e : Thrown) :
  recordHandler rt record h = (h', inl e) ->
  process_records rt (record :: rest) h
  = (h', inl (mkThrown Error "Error processing record")).
Proof.
  intros Hrun. simpl. unfold bind at 1, try_catch at 1. rewrite Hrun. reflexivity.
Qed.

(** Every soft-failure branch reads the parameter store once, and the
    secret store once when the parameter lookup returned. *)
Lemma soft_failure_reads (record : DynamoDBRecord) (h : History)
      (fileId userId key : JsValue) (error : Thrown) :
  let labels := EvGetLabels (s3BucketFiles rt) fileId userId key in
  let warn := EvLoggerWarn "No person found in the image" in
  let h' := fst (recordHandler rt record h) in
  decode rt record = inr (fileId, userId, key) ->
  getLabels_impl rt h (s3BucketFiles rt) fileId userId key = Some error ->
  is_soft_failure error = true ->
  count is_parameter_read h' = S (count is_parameter_read h)
  /\ (forall apiUrl,
         snd (getParameter rt (apiUrlParameterName rt) (h ++ [labels; warn]))
         = inr apiUrl ->
         count is_secret_read h' = S (count is_secret_read h)).
Proof.
  intros labels warn h' Hdecode Hlabels Hsoft. unfold h'.
  rewrite (recordHandler_failed _ _ _ _ _ _ Hdecode Hlabels).
  rewrite (on_labeling_error_soft _ _ _ _ Hsoft). cbv zeta.
  fold labels warn. repeat rewrite <- app_assoc. simpl app.
  destruct (snd (getParameter rt (apiUrlParameterName rt) (h ++ [labels; warn])))
    as [e | apiUrl].
  - split; [| discriminate].
    simpl fst. rewrite count_app. unfold count. simpl. lia.
  - destruct (snd (getSecret rt (apiKeySecretName rt) _)) as [e | apiKey];
      (split; [| intros ? _]); simpl fst; rewrite ?count_app; unfold count; simpl; lia.
Qed.

(** *** Runs that do not depend on the history *)

Lemma uniform_ret {A} (a : A) : uniform (ret a).
Proof. intros h. unfold ret. simpl. rewrite app_nil_r. reflexivity. Qed.

Lemma uniform_throw {A} (e : Thrown) : uniform (@throw A e).
Proof. intros h. unfold throw. simpl. rewrite app_nil_r. reflexivity. Qed.

Lemma uniform_lift {A} (r : Thrown + A) : uniform (lift r).
Proof. intros h. unfold lift. simpl. rewrite app_nil_r. reflexivity. Qed.

Lemma uniform_call {A} (ev : Event) (answer : History -> Thrown + A) :
  (forall h h', answer h = answer h') ->
  uniform (call ev answer).
Proof.
  intros Hsame h. unfold call. simpl. rewrite (Hsame h []). reflexivity.
Qed.

Lemma uniform_bind {A B} (c : Async A) (k : A -> Async B) :
  uniform c -> (forall a, uniform (k a)) -> uniform (bind c k).
Proof.
  intros Hc Hk h. unfold bind. rewrite (Hc h).
  destruct (c []) as [t [e | a]]; simpl.
  - reflexivity.
  - rewrite (Hk a (h ++ t)), (Hk a t). simpl. rewrite app_assoc. reflexivity.
Qed.

Lemma uniform_try_catch {A} (c : Async A) (handler : Thrown -> Async A) :
  uniform c -> (forall e, uniform (handler e)) -> uniform (try_catch c handler).
Proof.
  intros Hc Hhandler h. unfold try_catch. rewrite (Hc h).
  destruct (c []) as [t [e | a]]; simpl.
  - rewrite (Hhandler e (h ++ t)), (Hhandler e t). simpl.
    rewrite app_assoc. reflexivity.
  - reflexivity.
Qed.

Section Stateless.

Hypothesis Hstateless : stateless rt.

Lemma uniform_getParameter (name : string) : uniform (getParameter rt name).
Proof.
  destruct Hstateless as (_ & _ & Hssm & _).
  unfold getParameter. apply uniform_bind.
  - apply uniform_call. intros h h'. apply Hssm.
  - intros response. destruct (is_falsy _).
    + apply uniform_throw.
    + apply uniform_bind; [apply uniform_lift | intros parsed; apply uniform_lift].
Qed.

Lemma uniform_getSecret (name : string) : uniform (getSecret rt name).
Proof.
  destruct Hstateless as (_ & _ & _ & Hsecrets).
  unfold getSecret. apply uniform_bind.
  - apply uniform_call. intros h h'. apply Hsecrets.
  - intros response. destruct (is_falsy _).
    + apply uniform_throw.
    + apply uniform_bind; [apply uniform_lift | intros parsed; apply uniform_lift].
Qed.

Lemma uniform_on_labeling_error (fileId userId : JsValue) (error : Thrown) :
  uniform (on_labeling_error rt fileId userId error).
Proof.
  pose proof Hstateless as (_ & Hreport & _ & _).
  unfold on_labeling_error. destruct (is_soft_failure error).
  - apply uniform_bind.
    + apply uniform_call. reflexivity.
    + intros _. apply uniform_bind; [apply uniform_getParameter |].
      intros apiUrl. apply uniform_bind; [apply uniform_getSecret |].
      intros apiKey. apply uniform_bind.
      * apply uniform_call. intros h h'. f_equal. apply Hreport.
      * intros _. apply uniform_ret.
  - apply uniform_throw.
Qed.

Lemma uniform_recordHandler (record : DynamoDBRecord) :
  uniform (recordHandler rt record).
Proof.
  pose proof Hstateless as (Hlabels & _).
  unfold recordHandler. apply uniform_bind; [apply uniform_lift |].
  intros [[fileId userId] key]. apply uniform_try_catch.
  - apply uniform_call. intros h h'. f_equal. apply Hlabels.
  - intros e. apply uniform_on_labeling_error.
Qed.

End Stateless.

(** Whatever the collaborators do, a decoded record starts with the
    labeling call. *)
Lemma recordHandler_starts_with_labels (record : DynamoDBRecord) (h : History)
      (fileId userId key : JsValue) :
  decode rt record = inr (fileId, userId, key) ->
  exists rest,
    fst (recordHandler rt record h)
    = h ++ EvGetLabels (s3BucketFiles rt) fileId userId key :: rest.
Proof.
  intros Hdecode.
  destruct (getLabels_impl rt h (s3BucketFiles rt) fileId userId key) as [error |] eqn:Hlabels.
  - rewrite (recordHandler_failed _ _ _ _ _ _ Hdecode Hlabels).
    destruct (is_soft_failure error) eqn:Hkind.
    + rewrite (on_labeling_error_soft _ _ _ _ Hkind). cbv zeta.
      destruct (snd (getParameter rt _ _)) as [e | apiUrl].
      * eexists. simpl. repeat rewrite <- app_assoc. simpl. reflexivity.
      * destruct (snd (getSecret rt _ _)) as [e | apiKey].
        -- eexists. simpl. repeat rewrite <- app_assoc. simpl. reflexivity.
        -- eexists. simpl. repeat rewrite <- app_assoc. simpl. reflexivity.
    + rewrite (on_labeling_error_hard _ _ _ _ Hkind). exists []. reflexivity.
  - rewrite (recordHandler_labeled _ _ _ _ _ Hdecode Hlabels). exists []. reflexivity.
Qed.

End Runs.

Lemma example_rt_stateless : stateless TSExamples.example_rt.
Proof. repeat split. Qed.

End TSFacts.

(** ** Facts about the managed-runtime variant *)

Module JavaFacts.
Import Java.
Local Open Scope exec_scope.

Lemma count_app_java (kind : Event -> bool) (h1 h2 : History) :
  count kind (h1 ++ h2) = count kind h1 + count kind h2.
Proof.
  unfold count. rewrite filter_app, length_app. reflexivity.
Qed.

(** Reading the three strings makes no call and leaves the state alone. *)
Lemma decode_state (r : DynamodbStreamRecord) (st : State) :
  fst (decode r st) = st.
Proof.
  unfold decode, get_S, bind, deref, ret, throw.
  destruct (getDynamodb r) as [sr |]; [| reflexivity].
  destruct (getNewImage sr) as [m |]; [| reflexivity].
  destruct (assoc "id" m); [| reflexivity].
  destruct (assoc "userId" m); [| reflexivity].
  destruct (assoc "transformedFileKey" m); reflexivity.
Qed.

Lemma decode_run (r : DynamodbStreamRecord) (st : State) :
  decode r st = (st, snd (decode r st)).
Proof.
  rewrite <- (decode_state r st) at 2. destruct (decode r st); reflexivity.
Qed.

Section Runs.

Variable rt : Runtime.

(** *** The provider *)

Lemma provider_get_warm (p : ProviderKind) (maxAge : Z) (k v : string) (st : State) :
  let asked := record_event (EvProviderGet p maxAge (Some k)) st in
  fresh_entry (clock rt (history asked)) (cache_of p st) k = Some v ->
  provider_get rt p maxAge (Some k) st = (asked, inr v).
Proof.
  intros asked Hfresh. unfold provider_get. fold asked.
  replace (cache_of p asked) with (cache_of p st) by (destruct p; reflexivity).
  rewrite Hfresh. reflexivity.
Qed.

Lemma provider_get_cold (p : ProviderKind) (maxAge : Z) (k v : string) (st : State) :
  let asked := record_event (EvProviderGet p maxAge (Some k)) st in
  let read := record_event (EvStoreRead p k) asked in
  fresh_entry (clock rt (history asked)) (cache_of p st) k = None ->
  store_getValue rt p (history asked) k = inr v ->
  provider_get rt p maxAge (Some k) st
  = (put_in_cache p k (mkEntry v (clock rt (history read) + maxAge)) read, inr v).
Proof.
  intros asked read Hstale Hstore. unfold provider_get. fold asked.
  replace (cache_of p asked) with (cache_of p st) by (destruct p; reflexivity).
  rewrite Hstale, Hstore. reflexivity.
Qed.

(** A lookup records itself and, at most, one read of its own store. *)
Lemma provider_get_history (p : ProviderKind) (maxAge : Z) (key : option string)
      (st : State) :
  exists reads,
    history (fst (provider_get rt p maxAge key st))
    = history st ++ EvProviderGet p maxAge key :: reads
    /\ filter is_lookup_or_report reads = []
    /\ (reads = [] \/ exists k, key = Some k /\ reads = [EvStoreRead p k]).
Proof.
  unfold provider_get.
  destruct key as [k |].
  - destruct (fresh_entry _ _ k) as [v |].
    + exists []. simpl. auto.
    + exists [EvStoreRead p k]. split; [| split; [reflexivity | right; eauto]].
      destruct (store_getValue rt p _ k) as [e | v]; simpl.
      * rewrite <- app_assoc. reflexivity.
      * destruct p; simpl; rewrite <- app_assoc; reflexivity.
  - exists []. simpl. auto.
Qed.

(** *** The message processor, one step at a time *)

Lemma processMessage_undecoded (r : DynamodbStreamRecord) (st : State) (e : Throwable) :
  snd (decode r st) = inl e ->
  processMessage rt r st = (st, inl e).
Proof.
  intros Hdecode. unfold processMessage, bind at 1.
  rewrite decode_run, Hdecode. reflexivity.
Qed.

Lemma processMessage_decoded (r : DynamodbStreamRecord) (st : State)
      (fileId userId key : option string) :
  snd (decode r st) = inr (fileId, userId, key) ->
  processMessage rt r st
  = try_finally
      (try_catch_ImageDetection
         (getLabels rt (BUCKET_NAME_FILES rt) fileId userId key)
         (on_image_detection rt fileId userId))
      remove_keys (labeled fileId userId st).
Proof.
  intros Hdecode. unfold processMessage, bind at 1.
  rewrite decode_run, Hdecode. reflexivity.
Qed.

Lemma try_finally_remove_keys {A} (c : Exec A) (st : State) :
  try_finally c remove_keys st = (keys_removed (fst (c st)), snd (c st)).
Proof.
  unfold try_finally. destruct (c st) as [st' r]. reflexivity.
Qed.

Lemma processMessage_labeled (r : DynamodbStreamRecord) (st : State)
      (fileId userId key : option string) :
  snd (decode r st) = inr (fileId, userId, key) ->
  let before := labeled fileId userId st in
  let call := EvGetLabels (BUCKET_NAME_FILES rt) fileId userId key in
  getLabels_impl rt (history before) (BUCKET_NAME_FILES rt) fileId userId key = None ->
  processMessage rt r st = (keys_removed (record_event call before), inr tt).
Proof.
  intros Hdecode before call Hlabels.
  rewrite (processMessage_decoded _ _ _ _ _ Hdecode), try_finally_remove_keys.
  unfold try_catch_ImageDetection, getLabels, Java.call. fold before.
  rewrite Hlabels. reflexivity.
Qed.

Lemma processMessage_failed (r : DynamodbStreamRecord) (st : State)
      (fileId userId key : option string) (e : Throwable) :
  snd (decode r st) = inr (fileId, userId, key) ->
  let before := labeled fileId userId st in
  let call := EvGetLabels (BUCKET_NAME_FILES rt) fileId userId key in
  getLabels_impl rt (history before) (BUCKET_NAME_FILES rt) fileId userId key = Some e ->
  processMessage rt r st
  = if is_ImageDetectionException e then
      let run := on_image_detection rt fileId userId e (record_event call before) in
      (keys_removed (fst run), snd run)
    else
      (keys_removed (record_event call before), inl e).
Proof.
  intros Hdecode before call Hlabels.
  rewrite (processMessage_decoded _ _ _ _ _ Hdecode), try_finally_remove_keys.
  unfold try_catch_ImageDetection, getLabels, Java.call. fold before.
  rewrite Hlabels. simpl settle. cbv iota beta. fold call.
  destruct (is_ImageDetectionException e); reflexivity.
Qed.


(** The catch clause does not look at the exception it caught. *)
Lemma on_image_detection_any (fileId userId : option string) (e1 e2 : Throwable) :
  on_image_detection rt fileId userId e1 = on_image_detection rt fileId userId e2.
Proof. reflexivity. Qed.

Lemma on_image_detection_run (fileId userId : option string) (e : Throwable)
      (st st2 st3 : State) (apiUrl apiKey : string) :
  let warned := record_event (EvLoggerWarn "No person found in the image") st in
  provider_get rt Ssm 900 (API_URL_PARAMETER_NAME rt) warned = (st2, inr apiUrl) ->
  provider_get rt Secrets 900 (API_KEY_SECRET_NAME rt) st2 = (st3, inr apiKey) ->
  on_image_detection rt fileId userId e st
  = (record_event (EvReportImageIssue fileId userId (Some apiUrl) (Some apiKey)) st3,
     settle (reportImageIssue_impl rt (history st3) fileId userId
                                   (Some apiUrl) (Some apiKey))).
Proof.
  intros warned Hurl Hkey.
  unfold on_image_detection, bind, LOGGER_warn, Java.call at 1. fold warned.
  rewrite Hurl, Hkey. reflexivity.
Qed.

Lemma on_image_detection_history (fileId userId : option string) (e : Throwable)
      (st : State) :
  exists rest,
    history (fst (on_image_detection rt fileId userId e st)) = history st ++ rest.
Proof.
  unfold on_image_detection, bind, LOGGER_warn, Java.call at 1.
  set (warned := record_event (EvLoggerWarn "No person found in the image") st).
  destruct (provider_get_history Ssm 900 (API_URL_PARAMETER_NAME rt) warned)
    as (reads1 & Hurl & _).
  destruct (provider_get rt Ssm 900 (API_URL_PARAMETER_NAME rt) warned)
    as [st2 [e2 | apiUrl]]; simpl in Hurl.
  - eexists. simpl. rewrite Hurl. simpl. rewrite <- app_assoc. reflexivity.
  - destruct (provider_get_history Secrets 900 (API_KEY_SECRET_NAME rt) st2)
      as (reads2 & Hkey & _).
    destruct (provider_get rt Secrets 900 (API_KEY_SECRET_NAME rt) st2)
      as [st3 [e3 | apiKey]]; simpl in Hkey.
    + eexists. simpl. rewrite Hkey, Hurl. simpl.
      repeat rewrite <- app_assoc. reflexivity.
    + eexists. unfold reportImageIssue, Java.call. simpl. rewrite Hkey, Hurl. simpl.
      repeat rewrite <- app_assoc. reflexivity.
Qed.

(** A soft failure met with fresh values in both caches: the two lookups
    are answered by the providers and neither store is read. *)
Lemma processMessage_soft_warm (r : DynamodbStreamRecord) (st : State)
      (fileId userId key : option string) (e : Throwable)
      (url_name key_name apiUrl apiKey : string) :
  let labels := EvGetLabels (BUCKET_NAME_FILES rt) fileId userId key in
  let warn := EvLoggerWarn "No person found in the image" in
  let ask_url := EvProviderGet Ssm 900 (Some url_name) in
  let ask_key := EvProviderGet Secrets 900 (Some key_name) in
  let report := EvReportImageIssue fileId userId (Some apiUrl) (Some apiKey) in
  let before := history st ++ [EvAppendKey "fileId" fileId; EvAppendKey "userId" userId] in
  snd (decode r st) = inr (fileId, userId, key) ->
  getLabels_impl rt before (BUCKET_NAME_FILES rt) fileId userId key = Some e ->
  is_ImageDetectionException e = true ->
  API_URL_PARAMETER_NAME rt = Some url_name ->
  API_KEY_SECRET_NAME rt = Some key_name ->
  fresh_entry (clock rt (before ++ [labels; warn; ask_url])) (ssmCache st) url_name
  = Some apiUrl ->
  fresh_entry (clock rt (before ++ [labels; warn; ask_url; ask_key]))
              (secretsCache st) key_name
  = Some apiKey ->
  processMessage rt r st
  = (mkState (before ++ [labels; warn; ask_url; ask_key; report;
                         EvRemoveKey "fileId"; EvRemoveKey "userId"])
             (ssmCache st) (secretsCache st),
     settle (reportImageIssue_impl rt (before ++ [labels; warn; ask_url; ask_key])
                                   fileId userId (Some apiUrl) (Some apiKey))).
Proof.
  intros labels warn ask_url ask_key report before
         Hdecode Hlabels Hcaught Hurl_name Hkey_name Hurl Hkey.
  assert (Hbefore : history (labeled fileId userId st) = before).
  { unfold labeled, before. simpl. rewrite <- app_assoc. reflexivity. }
  rewrite <- Hbefore in Hlabels.
  rewrite (processMessage_failed _ _ _ _ _ _ Hdecode Hlabels), Hcaught. cbv zeta.
  fold labels.
  set (st1 := record_event labels (labeled fileId userId st)).
  assert (Hst1 : record_event warn st1
                 = mkState (before ++ [labels; warn]) (ssmCache st) (secretsCache st)).
  { unfold st1, labeled, record_event, before. simpl.
    repeat rewrite <- app_assoc. reflexivity. }
  set (asked_url := mkState (before ++ [labels; warn; ask_url])
                            (ssmCache st) (secretsCache st)).
  set (asked_key := mkState (before ++ [labels; warn; ask_url; ask_key])
                            (ssmCache st) (secretsCache st)).
  assert (Hget_url : provider_get rt Ssm 900 (API_URL_PARAMETER_NAME rt)
                                  (record_event warn st1)
                     = (asked_url, inr apiUrl)).
  { rewrite Hurl_name, Hst1.
    rewrite (provider_get_warm Ssm 900 url_name apiUrl).
    - unfold record_event, asked_url. simpl. rewrite <- app_assoc. reflexivity.
    - simpl. rewrite <- app_assoc. exact Hurl. }
  assert (Hget_key : provider_get rt Secrets 900 (API_KEY_SECRET_NAME rt) asked_url
                     = (asked_key, inr apiKey)).
  { rewrite Hkey_name.
    rewrite (provider_get_warm Secrets 900 key_name apiKey).
    - unfold record_event, asked_key. simpl. rewrite <- app_assoc. reflexivity.
    - simpl. rewrite <- app_assoc. exact Hkey. }
  rewrite (on_image_detection_run fileId userId e _ _ _ _ _ Hget_url Hget_key).
  simpl fst. simpl snd. f_equal.
  unfold keys_removed, record_event, asked_key. simpl.
  repeat rewrite <- app_assoc. reflexivity.
Qed.

(** Whatever the collaborators do, a decoded record sets the two logging
    keys and then issues the labeling call. *)
Lemma processMessage_starts_with_labels (r : DynamodbStreamRecord) (st : State)
      (fileId userId key : option string) :
  snd (decode r st) = inr (fileId, userId, key) ->
  exists rest,
    history (fst (processMessage rt r st))
    = history st
      ++ EvAppendKey "fileId" fileId :: EvAppendKey "userId" userId
      :: EvGetLabels (BUCKET_NAME_FILES rt) fileId userId key :: rest.
Proof.
  intros Hdecode.
  destruct (getLabels_impl rt (history (labeled fileId userId st))
                           (BUCKET_NAME_FILES rt) fileId userId key)
    as [e |] eqn:Hlabels.
  - rewrite (processMessage_failed _ _ _ _ _ _ Hdecode Hlabels).
    destruct (is_ImageDetectionException e).
    + cbv zeta.
      destruct (on_image_detection_history fileId userId e
                  (record_event (EvGetLabels (BUCKET_NAME_FILES rt) fileId userId key)
                                (labeled fileId userId st)))
        as [rest Hrest].
      eexists. simpl. rewrite Hrest. simpl.
      repeat rewrite <- app_assoc. simpl. reflexivity.
    + eexists. simpl. repeat rewrite <- app_assoc. simpl. reflexivity.
  - rewrite (processMessage_labeled _ _ _ _ _ Hdecode Hlabels).
    eexists. simpl. repeat rewrite <- app_assoc. simpl. reflexivity.
Qed.

End Runs.

(** The three strings of a record that carries its payload, and the
    exception for one that does not. *)
Lemma decode_payload (r : DynamodbStreamRecord) (st : State) :
  carries_payload r = true ->
  exists sr image a b c,
    getDynamodb r = Some sr /\ getNewImage sr = Some image
    /\ assoc "id" image = Some a /\ assoc "userId" image = Some b
    /\ assoc "transformedFileKey" image = Some c
    /\ snd (decode r st) = inr (getS a, getS b, getS c).
Proof.
  unfold carries_payload, decode, get_S, bind, deref, ret.
  destruct (getDynamodb r) as [sr |] eqn:Hsr; [| discriminate].
  destruct (getNewImage sr) as [image |] eqn:Himage; [| discriminate].
  destruct (assoc "id" image) as [a |] eqn:Ha; [| discriminate].
  destruct (assoc "userId" image) as [b |] eqn:Hb; [| discriminate].
  destruct (assoc "transformedFileKey" image) as [c |] eqn:Hc; [| discriminate].
  intros _. exists sr, image, a, b, c. simpl. rewrite Ha, Hb, Hc. auto 10.
Qed.

Lemma decode_no_payload (r : DynamodbStreamRecord) (st : State) :
  carries_payload r = false ->
  snd (decode r st) = inl NPE.
Proof.
  unfold carries_payload, decode, get_S, bind, deref, ret, throw.
  destruct (getDynamodb r) as [sr |]; [| reflexivity].
  destruct (getNewImage sr) as [image |]; [| reflexivity].
  destruct (assoc "id" image) as [a |]; [| reflexivity].
  destruct (assoc "userId" image) as [b |]; [| reflexivity].
  destruct (assoc "transformedFileKey" image) as [c |]; [discriminate | reflexivity].
Qed.

End JavaFacts.

(** ** The properties of the record processor *)

Import ListNotations.

(** C1. A record whose labeling call fails with the no-person or the
    no-labels classification, and whose parameter lookup, secret lookup and
    report call succeed, makes exactly one parameter lookup, then exactly
    one secret lookup, then exactly one report call, and the processor
    returns normally. In the scripting variant the whole run is the
    labeling call, the warning and these three calls; in the
    managed-runtime variant the lookups go through the providers, and the
    calls of the run, restricted to lookups and reports, are these three. *)
Theorem soft_failure_reports_once :
  (forall (rt : TS.Runtime) (record : TS.DynamoDBRecord) (h : TS.History)
          (fileId userId key : TS.JsValue) (error : TS.Thrown)
          (apiUrl apiKey : TS.JsValue),
      let labels := TS.EvGetLabels (TS.s3BucketFiles rt) fileId userId key in
      let warn := TS.EvLoggerWarn "No person found in the image" in
      let param := TS.EvSsmSend (TS.apiUrlParameterName rt) in
      let secret := TS.EvSecretsSend (TS.apiKeySecretName rt) in
      TS.decode rt record = inr (fileId, userId, key) ->
      TS.getLabels_impl rt h (TS.s3BucketFiles rt) fileId userId key = Some error ->
      TS.is_soft_failure error = true ->
      snd (TS.getParameter rt (TS.apiUrlParameterName rt) (h ++ [labels; warn]))
      = inr apiUrl ->
      snd (TS.getSecret rt (TS.apiKeySecretName rt) (h ++ [labels; warn; param]))
      = inr apiKey ->
      TS.reportImageIssue_impl rt (h ++ [labels; warn; param; secret])
                               fileId userId apiUrl apiKey = None ->
      TS.recordHandler rt record h
      = (h ++ [labels; warn; param; secret;
               TS.EvReportImageIssue fileId userId apiUrl apiKey],
         inr tt))
  /\
  (forall (rt : Java.Runtime) (r : Java.DynamodbStreamRecord) (st st2 st3 : Java.State)
          (fileId userId key : option string) (e : Java.Throwable)
          (apiUrl apiKey : string),
      let before := Java.labeled fileId userId st in
      let labels := Java.EvGetLabels (Java.BUCKET_NAME_FILES rt) fileId userId key in
      let warn := Java.EvLoggerWarn "No person found in the image" in
      snd (Java.decode r st) = inr (fileId, userId, key) ->
      Java.getLabels_impl rt (Java.history before)
                          (Java.BUCKET_NAME_FILES rt) fileId userId key = Some e ->
      Java.is_ImageDetectionException e = true ->
      Java.provider_get rt Java.Ssm 900 (Java.API_URL_PARAMETER_NAME rt)
                        (Java.record_event warn (Java.record_event labels before))
      = (st2, inr apiUrl) ->
      Java.provider_get rt Java.Secrets 900 (Java.API_KEY_SECRET_NAME rt) st2
      = (st3, inr apiKey) ->
      Java.reportImageIssue_impl rt (Java.history st3) fileId userId
                                 (Some apiUrl) (Some apiKey) = None ->
      exists (st' : Java.State) (calls : Java.History),
        Java.processMessage rt r st = (st', inr tt)
        /\ Java.history st' = Java.history st ++ calls
        /\ filter Java.is_lookup_or_report calls
           = [Java.EvProviderGet Java.Ssm 900 (Java.API_URL_PARAMETER_NAME rt);
              Java.EvProviderGet Java.Secrets 900 (Java.API_KEY_SECRET_NAME rt);
              Java.EvReportImageIssue fileId userId (Some apiUrl) (Some apiKey)]).
Proof.
  split.
  - intros rt record h fileId userId key error apiUrl apiKey labels warn param secret
           Hdecode Hlabels Hsoft Hurl Hkey Hreport.
    rewrite (TSFacts.recordHandler_failed rt _ _ _ _ _ _ Hdecode Hlabels).
    rewrite (TSFacts.on_labeling_error_soft rt _ _ _ _ Hsoft).
    fold labels warn param secret.
    repeat rewrite <- app_assoc. simpl app.
    rewrite Hurl, Hkey, Hreport. rewrite <- app_assoc. reflexivity.
  - intros rt r st st2 st3 fileId userId key e apiUrl apiKey before labels warn
           Hdecode Hlabels Hcaught Hurl Hkey Hreport.
    rewrite (JavaFacts.processMessage_failed rt _ _ _ _ _ _ Hdecode Hlabels), Hcaught.
    fold before labels.
    rewrite (JavaFacts.on_image_detection_run rt _ _ _ _ _ _ _ _ Hurl Hkey), Hreport.
    cbv zeta. simpl fst. simpl snd.
    destruct (JavaFacts.provider_get_history rt Java.Ssm 900
                (Java.API_URL_PARAMETER_NAME rt)
                (Java.record_event warn (Java.record_event labels before)))
      as (reads1 & Hh2 & Hsilent1 & _).
    destruct (JavaFacts.provider_get_history rt Java.Secrets 900
                (Java.API_KEY_SECRET_NAME rt) st2)
      as (reads2 & Hh3 & Hsilent2 & _).
    rewrite Hurl in Hh2. rewrite Hkey in Hh3. simpl fst in Hh2, Hh3.
    eexists. eexists. split; [reflexivity |]. split.
    + simpl. rewrite Hh3, Hh2. simpl.
      repeat rewrite <- app_assoc. simpl. reflexivity.
    + simpl. rewrite filter_app. simpl. rewrite filter_app. simpl.
      rewrite Hsilent1, Hsilent2. reflexivity.
Qed.

Lemma soft_failure_reports_once_witness :
  TS.recordHandler TSExamples.example_rt (TSExamples.record_of "no-person") []
  = ([TSExamples.labels_call "no-person"; TSExamples.warn_call;
      TS.EvSsmSend TSExamples.url_name; TS.EvSecretsSend TSExamples.key_name;
      TSExamples.report_call "no-person"],
     inr tt)
  /\
  exists (st' : Java.State) (calls : Java.History),
    Java.processMessage JavaExamples.example_rt (JavaExamples.record_of "no-labels")
                        JavaExamples.cold = (st', inr tt)
    /\ Java.history st' = calls
    /\ filter Java.is_lookup_or_report calls
       = [Java.EvProviderGet Java.Ssm 900 (Some JavaExamples.url_name);
          Java.EvProviderGet Java.Secrets 900 (Some JavaExamples.key_name);
          Java.EvReportImageIssue (Some "no-labels") (Some "user-1")
                                  (Some "https://api.example.com") (Some "s3cr3t")].
Proof.
  split.
  - apply (proj1 soft_failure_reports_once TSExamples.example_rt
                 (TSExamples.record_of "no-person") []
                 (TS.JString "no-person") (TS.JString "user-1")
                 (TS.JString "transformed/no-person.jpg")
                 (TS.mkThrown TS.NoPersonFoundError "No person found")
                 (TS.JString "https://api.example.com") (TS.JString "s3cr3t"));
      reflexivity.
  - eapply (proj2 soft_failure_reports_once JavaExamples.example_rt
                  (JavaExamples.record_of "no-labels") JavaExamples.cold);
      reflexivity.
Defined.

(** C2. A record whose labeling call fails with an error outside the
    no-person / no-labels classification makes no parameter lookup, no
    secret lookup and no report call: the labeling call is the only call of
    the run, and the record handler ends with that very error. *)
Theorem hard_failure_propagates
        (rt : TS.Runtime) (record : TS.DynamoDBRecord) (h : TS.History)
        (fileId userId key : TS.JsValue) (error : TS.Thrown) :
  TS.decode rt record = inr (fileId, userId, key) ->
  TS.getLabels_impl rt h (TS.s3BucketFiles rt) fileId userId key = Some error ->
  TS.is_soft_failure error = false ->
  TS.recordHandler rt record h
  = (h ++ [TS.EvGetLabels (TS.s3BucketFiles rt) fileId userId key], inl error).
Proof.
  intros Hdecode Hlabels Hhard.
  exact (TSFacts.recordHandler_hard rt _ _ _ _ _ _ Hdecode Hlabels Hhard).
Qed.

Lemma hard_failure_propagates_witness :
  TS.recordHandler TSExamples.example_rt (TSExamples.record_of "denied") []
  = ([TSExamples.labels_call "denied"],
     inl (TS.mkThrown (TS.OtherError "AccessDeniedException") "Access denied")).
Proof.
  apply (hard_failure_propagates TSExamples.example_rt (TSExamples.record_of "denied") []
           (TS.JString "denied") (TS.JString "user-1")
           (TS.JString "transformed/denied.jpg")
           (TS.mkThrown (TS.OtherError "AccessDeniedException") "Access denied"));
    reflexivity.
Defined.

(** C4. A record whose labeling call succeeds makes no parameter lookup,
    no secret lookup and no report call: the labeling call is the only call
    of the run, and the record handler returns normally. *)
Theorem success_has_no_further_effect
        (rt : TS.Runtime) (record : TS.DynamoDBRecord) (h : TS.History)
        (fileId userId key : TS.JsValue) :
  TS.decode rt record = inr (fileId, userId, key) ->
  TS.getLabels_impl rt h (TS.s3BucketFiles rt) fileId userId key = None ->
  TS.recordHandler rt record h
  = (h ++ [TS.EvGetLabels (TS.s3BucketFiles rt) fileId userId key], inr tt).
Proof.
  intros Hdecode Hlabels.
  exact (TSFacts.recordHandler_labeled rt _ _ _ _ _ Hdecode Hlabels).
Qed.

Lemma success_has_no_further_effect_witness :
  TS.recordHandler TSExamples.example_rt (TSExamples.record_of "portrait") []
  = ([TSExamples.labels_call "portrait"], inr tt).
Proof.
  apply (success_has_no_further_effect TSExamples.example_rt
           (TSExamples.record_of "portrait") []
           (TS.JString "portrait") (TS.JString "user-1")
           (TS.JString "transformed/portrait.jpg"));
    reflexivity.
Defined.

(** C5. In the scripting variant, for a batch of three records of which
    the first is labeled successfully and the second fails hard: the first
    record is processed to its end, the second aborts, the handler stops
    with an error, and no call at all is made for the third record. *)
Theorem hard_failure_stops_the_batch
        (rt : TS.Runtime) (r1 r2 r3 : TS.DynamoDBRecord) (h : TS.History)
        (fileId1 userId1 key1 fileId2 userId2 key2 : TS.JsValue) (error : TS.Thrown) :
  let labels1 := TS.EvGetLabels (TS.s3BucketFiles rt) fileId1 userId1 key1 in
  let labels2 := TS.EvGetLabels (TS.s3BucketFiles rt) fileId2 userId2 key2 in
  TS.decode rt r1 = inr (fileId1, userId1, key1) ->
  TS.getLabels_impl rt h (TS.s3BucketFiles rt) fileId1 userId1 key1 = None ->
  TS.decode rt r2 = inr (fileId2, userId2, key2) ->
  TS.getLabels_impl rt (h ++ [labels1]) (TS.s3BucketFiles rt) fileId2 userId2 key2
  = Some error ->
  TS.is_soft_failure error = false ->
  TS.recordHandler rt r1 h = (h ++ [labels1], inr tt)
  /\ TS.recordHandler rt r2 (h ++ [labels1]) = (h ++ [labels1; labels2], inl error)
  /\ TS.handler rt (TS.mkDynamoDBStreamEvent [r1; r2; r3]) h
     = (h ++ [labels1; labels2], inl (TS.mkThrown TS.Error "Error processing record")).
Proof.
  intros labels1 labels2 Hdecode1 Hlabels1 Hdecode2 Hlabels2 Hhard.
  assert (Hfirst : TS.recordHandler rt r1 h = (h ++ [labels1], inr tt))
    by exact (TSFacts.recordHandler_labeled rt _ _ _ _ _ Hdecode1 Hlabels1).
  assert (Hsecond : TS.recordHandler rt r2 (h ++ [labels1])
                    = (h ++ [labels1; labels2], inl error)).
  { rewrite (TSFacts.recordHandler_hard rt _ _ _ _ _ _ Hdecode2 Hlabels2 Hhard).
    rewrite <- app_assoc. reflexivity. }
  repeat split; [exact Hfirst | exact Hsecond |].
  unfold TS.handler. simpl TS.Records.
  rewrite (TSFacts.process_records_continue rt _ _ _ _ Hfirst).
  exact (TSFacts.process_records_abort rt _ _ _ _ _ Hsecond).
Qed.

Lemma hard_failure_stops_the_batch_witness :
  TS.handler TSExamples.example_rt
             (TS.mkDynamoDBStreamEvent
                [TSExamples.record_of "portrait"; TSExamples.record_of "denied";
                 TSExamples.record_of "no-person"]) []
  = ([TSExamples.labels_call "portrait"; TSExamples.labels_call "denied"],
     inl (TS.mkThrown TS.Error "Error processing record")).
Proof.
  apply (hard_failure_stops_the_batch TSExamples.example_rt
           (TSExamples.record_of "portrait") (TSExamples.record_of "denied")
           (TSExamples.record_of "no-person") []
           (TS.JString "portrait") (TS.JString "user-1")
           (TS.JString "transformed/portrait.jpg")
           (TS.JString "denied") (TS.JString "user-1")
           (TS.JString "transformed/denied.jpg")
           (TS.mkThrown (TS.OtherError "AccessDeniedException") "Access denied"));
    reflexivity.
Defined.



(** C6. In a soft-failure branch, when the value the parameter store sends
    back is missing (absent or empty), [getParameter] throws an error whose
    message names the parameter; when the parameter lookup returned and the
    value the secret store sends back is missing, [getSecret] throws an
    error whose message names the secret. Either way the record handler
    ends with that error and no report call is made. *)
Theorem missing_credential_blocks_report
        (rt : TS.Runtime) (record : TS.DynamoDBRecord) (h : TS.History)
        (fileId userId key : TS.JsValue) (error : TS.Thrown) :
  let labels := TS.EvGetLabels (TS.s3BucketFiles rt) fileId userId key in
  let warn := TS.EvLoggerWarn "No person found in the image" in
  let url_name := TS.apiUrlParameterName rt in
  let key_name := TS.apiKeySecretName rt in
  let h1 := h ++ [labels; warn] in
  let h2 := h1 ++ [TS.EvSsmSend url_name] in
  let h3 := h2 ++ [TS.EvSecretsSend key_name] in
  TS.decode rt record = inr (fileId, userId, key) ->
  TS.getLabels_impl rt h (TS.s3BucketFiles rt) fileId userId key = Some error ->
  TS.is_soft_failure error = true ->
  (forall response : TS.GetParameterResult,
      TS.ssmClient_send rt h1 url_name = inr response ->
      TS.missing (TS.optional_Value (TS.Parameter_ response)) ->
      let failure := TS.mkThrown TS.Error ("Unable to get parameter " ++ url_name) in
      snd (TS.getParameter rt url_name h1) = inl failure
      /\ TS.recordHandler rt record h = (h2, inl failure)
      /\ TS.count TS.is_report_call h2 = TS.count TS.is_report_call h)
  /\
  (forall (apiUrl : TS.JsValue) (response : TS.GetSecretValueResponse),
      snd (TS.getParameter rt url_name h1) = inr apiUrl ->
      TS.secretsClient_send rt h2 key_name = inr response ->
      TS.missing (TS.SecretString response) ->
      let failure := TS.mkThrown TS.Error ("Unable to get secret " ++ key_name) in
      snd (TS.getSecret rt key_name h2) = inl failure
      /\ TS.recordHandler rt record h = (h3, inl failure)
      /\ TS.count TS.is_report_call h3 = TS.count TS.is_report_call h).
Proof.
  intros labels warn url_name key_name h1 h2 h3 Hdecode Hlabels Hsoft.
  assert (Hrun : TS.recordHandler rt record h
                 = match snd (TS.getParameter rt url_name h1) with
                   | inl e => (h2, inl e)
                   | inr apiUrl =>
                       match snd (TS.getSecret rt key_name h2) with
                       | inl e => (h3, inl e)
                       | inr apiKey =>
                           (h3 ++ [TS.EvReportImageIssue fileId userId apiUrl apiKey],
                            TS.settle (TS.reportImageIssue_impl rt h3 fileId userId
                                                                apiUrl apiKey))
                       end
                   end).
  { rewrite (TSFacts.recordHandler_failed rt _ _ _ _ _ _ Hdecode Hlabels).
    rewrite (TSFacts.on_labeling_error_soft rt _ _ _ _ Hsoft).
    unfold h3, h2, h1, url_name, key_name. cbv zeta.
    repeat rewrite <- app_assoc. reflexivity. }
  split.
  - intros response Hsend Hmissing failure.
    apply TSFacts.is_falsy_missing in Hmissing.
    pose proof (TSFacts.getParameter_missing rt _ _ _ Hsend Hmissing) as Hthrown.
    fold failure in Hthrown.
    split; [exact Hthrown |]. split.
    + rewrite Hrun, Hthrown. reflexivity.
    + unfold h2, h1, labels, warn. rewrite !TSFacts.count_app.
      unfold TS.count. simpl. lia.
  - intros apiUrl response Hurl Hsend Hmissing failure.
    apply TSFacts.is_falsy_missing in Hmissing.
    pose proof (TSFacts.getSecret_missing rt _ _ _ Hsend Hmissing) as Hthrown.
    fold failure in Hthrown.
    split; [exact Hthrown |]. split.
    + rewrite Hrun, Hurl, Hthrown. reflexivity.
    + unfold h3, h2, h1, labels, warn. rewrite !TSFacts.count_app.
      unfold TS.count. simpl. lia.
Qed.

Lemma missing_credential_blocks_report_witness :
  TS.recordHandler TSExamples.rt_missing_parameter (TSExamples.record_of "no-person") []
  = ([TSExamples.labels_call "no-person"; TSExamples.warn_call;
      TS.EvSsmSend TSExamples.url_name],
     inl (TS.mkThrown TS.Error "Unable to get parameter /workshop/api-url"))
  /\
  TS.recordHandler TSExamples.rt_missing_secret (TSExamples.record_of "no-labels") []
  = ([TSExamples.labels_call "no-labels"; TSExamples.warn_call;
      TS.EvSsmSend TSExamples.url_name; TS.EvSecretsSend TSExamples.key_name],
     inl (TS.mkThrown TS.Error "Unable to get secret workshop/api-key")).
Proof.
  split.
  - destruct (missing_credential_blocks_report
                TSExamples.rt_missing_parameter (TSExamples.record_of "no-person") []
                (TS.JString "no-person") (TS.JString "user-1")
                (TS.JString "transformed/no-person.jpg")
                (TS.mkThrown TS.NoPersonFoundError "No person found")
                eq_refl eq_refl eq_refl) as [Hparameter _].
    destruct (Hparameter (TS.mkGetParameterResult None) eq_refl (or_introl eq_refl))
      as (_ & Hrun & _).
    exact Hrun.
  - destruct (missing_credential_blocks_report
                TSExamples.rt_missing_secret (TSExamples.record_of "no-labels") []
                (TS.JString "no-labels") (TS.JString "user-1")
                (TS.JString "transformed/no-labels.jpg")
                (TS.mkThrown TS.NoLabelsFoundError "No labels found")
                eq_refl eq_refl eq_refl) as [_ Hsecret].
    destruct (Hsecret (TS.JString "https://api.example.com")
                      (TS.mkGetSecretValueResponse (Some ""))
                      eq_refl eq_refl (or_intror eq_refl))
      as (_ & Hrun & _).
    exact Hrun.
Defined.

(** C10. Neither [getParameter] nor [getSecret] returns the stored text.
    When the store sends back a non-empty text, the lookup parses it as
    JSON and answers with the member of the parsed value that is named like
    the lookup itself: the entry under that name when the parsed object has
    one, [undefined] when the object has no such entry (and inherits none),
    so that the lookup then returns without a value; and when the text is
    not valid JSON the lookup throws the parser's error. *)
Theorem lookups_index_the_parsed_document
        (rt : TS.Runtime) (name : string) (h : TS.History) (text : string) :
  text <> "" ->
  (forall response : TS.GetParameterResult,
      TS.ssmClient_send rt h name = inr response ->
      TS.optional_Value (TS.Parameter_ response) = Some text ->
      snd (TS.getParameter rt name h)
      = match TS.JSON_parse rt text with
        | inl e => inl e
        | inr parsed => TS.js_get rt parsed name
        end
      /\ (forall props entry,
             TS.JSON_parse rt text = inr (TS.JObject props) ->
             assoc name props = Some entry ->
             snd (TS.getParameter rt name h) = inr entry)
      /\ (forall props,
             TS.JSON_parse rt text = inr (TS.JObject props) ->
             assoc name props = None ->
             TS.builtin_member rt (TS.JObject props) name = TS.JUndefined ->
             snd (TS.getParameter rt name h) = inr TS.JUndefined)
      /\ (forall e,
             TS.JSON_parse rt text = inl e ->
             snd (TS.getParameter rt name h) = inl e))
  /\
  (forall response : TS.GetSecretValueResponse,
      TS.secretsClient_send rt h name = inr response ->
      TS.SecretString response = Some text ->
      snd (TS.getSecret rt name h)
      = match TS.JSON_parse rt text with
        | inl e => inl e
        | inr parsed => TS.js_get rt parsed name
        end
      /\ (forall props entry,
             TS.JSON_parse rt text = inr (TS.JObject props) ->
             assoc name props = Some entry ->
             snd (TS.getSecret rt name h) = inr entry)
      /\ (forall props,
             TS.JSON_parse rt text = inr (TS.JObject props) ->
             assoc name props = None ->
             TS.builtin_member rt (TS.JObject props) name = TS.JUndefined ->
             snd (TS.getSecret rt name h) = inr TS.JUndefined)
      /\ (forall e,
             TS.JSON_parse rt text = inl e ->
             snd (TS.getSecret rt name h) = inl e)).
Proof.
  intros Hnonempty. split.
  - intros response Hsend Hvalue.
    pose proof (TSFacts.getParameter_present rt _ _ _ _ Hsend Hvalue Hnonempty) as Hrun.
    split; [exact Hrun |]. rewrite Hrun. repeat split.
    + intros props entry Hparse Hentry. rewrite Hparse. simpl. rewrite Hentry. reflexivity.
    + intros props Hparse Hentry Hinherit. rewrite Hparse. simpl.
      rewrite Hentry, Hinherit. reflexivity.
    + intros e Hparse. rewrite Hparse. reflexivity.
  - intros response Hsend Hvalue.
    pose proof (TSFacts.getSecret_present rt _ _ _ _ Hsend Hvalue Hnonempty) as Hrun.
    split; [exact Hrun |]. rewrite Hrun. repeat split.
    + intros props entry Hparse Hentry. rewrite Hparse. simpl. rewrite Hentry. reflexivity.
    + intros props Hparse Hentry Hinherit. rewrite Hparse. simpl.
      rewrite Hentry, Hinherit. reflexivity.
    + intros e Hparse. rewrite Hparse. reflexivity.
Qed.

Lemma lookups_index_the_parsed_document_witness :
  TS.getParameter TSExamples.example_rt TSExamples.url_name []
  = ([TS.EvSsmSend TSExamples.url_name], inr (TS.JString "https://api.example.com"))
  /\ TS.getParameter TSExamples.rt_other_key_plain_secret TSExamples.url_name []
     = ([TS.EvSsmSend TSExamples.url_name], inr TS.JUndefined)
  /\ TS.getSecret TSExamples.rt_other_key_plain_secret TSExamples.key_name []
     = ([TS.EvSecretsSend TSExamples.key_name],
        inl (TS.mkThrown TS.SyntaxError "Unexpected token in JSON")).
Proof.
  split; [| split].
  - rewrite TSFacts.getParameter_run.
    destruct (lookups_index_the_parsed_document
                TSExamples.example_rt TSExamples.url_name []
                (TSExamples.json_entry TSExamples.url_name "https://api.example.com")
                ltac:(discriminate))
      as [Hparameter _].
    destruct (Hparameter _ eq_refl eq_refl) as (_ & Hentry & _).
    rewrite (Hentry _ _ eq_refl eq_refl). reflexivity.
  - rewrite TSFacts.getParameter_run.
    destruct (lookups_index_the_parsed_document
                TSExamples.rt_other_key_plain_secret TSExamples.url_name []
                (TSExamples.json_entry "url" "https://api.example.com")
                ltac:(discriminate))
      as [Hparameter _].
    destruct (Hparameter _ eq_refl eq_refl) as (_ & _ & Habsent & _).
    rewrite (Habsent _ eq_refl eq_refl eq_refl). reflexivity.
  - rewrite TSFacts.getSecret_run.
    destruct (lookups_index_the_parsed_document
                TSExamples.rt_other_key_plain_secret TSExamples.key_name []
                "s3cr3t" ltac:(discriminate))
      as [_ Hsecret].
    destruct (Hsecret _ eq_refl eq_refl) as (_ & _ & _ & Hmalformed).
    rewrite (Hmalformed _ eq_refl). reflexivity.
Defined.

(** C8. Nothing guards against processing a record again. Each time the
    record handler is applied to a record it issues the labeling call anew;
    when that call fails softly the warning and the parameter lookup follow
    anew, and when the two lookups return, the second application makes the
    whole sequence of the labeling call, the warning, the parameter lookup,
    the secret lookup and the report call again. When the collaborators
    answer equal requests equally, the second application repeats the calls
    of the first, one for one, and ends as the first did; for a soft
    failure whose lookups return that is the five calls, made twice. *)
Theorem reprocessing_repeats_every_call
        (rt : TS.Runtime) (record : TS.DynamoDBRecord) (h : TS.History)
        (fileId userId key : TS.JsValue) :
  let labels := TS.EvGetLabels (TS.s3BucketFiles rt) fileId userId key in
  let warn := TS.EvLoggerWarn "No person found in the image" in
  let param := TS.EvSsmSend (TS.apiUrlParameterName rt) in
  let secret := TS.EvSecretsSend (TS.apiKeySecretName rt) in
  let first := TS.recordHandler rt record h in
  let second := TS.recordHandler rt record (fst first) in
  TS.decode rt record = inr (fileId, userId, key) ->
  (exists rest1 rest2,
      fst first = h ++ labels :: rest1
      /\ fst second = fst first ++ labels :: rest2)
  /\
  (forall error,
      TS.getLabels_impl rt (fst first) (TS.s3BucketFiles rt) fileId userId key
      = Some error ->
      TS.is_soft_failure error = true ->
      exists rest2,
        fst second
        = fst first
          ++ labels :: TS.EvLoggerWarn "No person found in the image"
                    :: TS.EvSsmSend (TS.apiUrlParameterName rt) :: rest2)
  /\
  (TS.stateless rt ->
   exists calls,
     fst first = h ++ calls
     /\ fst second = (h ++ calls) ++ calls
     /\ snd second = snd first
     /\ TS.count TS.is_labeling_call calls = 1)
  /\
  (forall error apiUrl apiKey,
      TS.getLabels_impl rt (fst first) (TS.s3BucketFiles rt) fileId userId key
      = Some error ->
      TS.is_soft_failure error = true ->
      snd (TS.getParameter rt (TS.apiUrlParameterName rt) (fst first ++ [labels; warn]))
      = inr apiUrl ->
      snd (TS.getSecret rt (TS.apiKeySecretName rt)
                        (fst first ++ [labels; warn; param]))
      = inr apiKey ->
      second
      = (fst first ++ [labels; warn; param; secret;
                       TS.EvReportImageIssue fileId userId apiUrl apiKey],
         TS.settle (TS.reportImageIssue_impl rt
                      (fst first ++ [labels; warn; param; secret])
                      fileId userId apiUrl apiKey)))
  /\
  (TS.stateless rt ->
   forall error apiUrl apiKey,
     TS.getLabels_impl rt h (TS.s3BucketFiles rt) fileId userId key = Some error ->
     TS.is_soft_failure error = true ->
     snd (TS.getParameter rt (TS.apiUrlParameterName rt) (h ++ [labels; warn]))
     = inr apiUrl ->
     snd (TS.getSecret rt (TS.apiKeySecretName rt) (h ++ [labels; warn; param]))
     = inr apiKey ->
     let calls := [labels; warn; param; secret;
                   TS.EvReportImageIssue fileId userId apiUrl apiKey] in
     fst first = h ++ calls
     /\ fst second = (h ++ calls) ++ calls
     /\ snd second = snd first).
Proof.
  intros labels warn param secret first second Hdecode.
  assert (Hsoft_run :
            forall h0 error apiUrl apiKey,
              TS.getLabels_impl rt h0 (TS.s3BucketFiles rt) fileId userId key
              = Some error ->
              TS.is_soft_failure error = true ->
              snd (TS.getParameter rt (TS.apiUrlParameterName rt)
                                   (h0 ++ [labels; warn])) = inr apiUrl ->
              snd (TS.getSecret rt (TS.apiKeySecretName rt)
                                (h0 ++ [labels; warn; param])) = inr apiKey ->
              TS.recordHandler rt record h0
              = (h0 ++ [labels; warn; param; secret;
                        TS.EvReportImageIssue fileId userId apiUrl apiKey],
                 TS.settle (TS.reportImageIssue_impl rt
                              (h0 ++ [labels; warn; param; secret])
                              fileId userId apiUrl apiKey))).
  { intros h0 error apiUrl apiKey Hlabels Hsoft Hurl Hkey.
    rewrite (TSFacts.recordHandler_failed rt _ _ _ _ _ _ Hdecode Hlabels).
    rewrite (TSFacts.on_labeling_error_soft rt _ _ _ _ Hsoft). cbv zeta.
    fold labels warn param secret. repeat rewrite <- app_assoc. simpl app.
    rewrite Hurl, Hkey. rewrite <- app_assoc. reflexivity. }
  split; [| split; [| split; [| split]]].
  - destruct (TSFacts.recordHandler_starts_with_labels rt record h _ _ _ Hdecode)
      as [rest1 Hfirst].
    destruct (TSFacts.recordHandler_starts_with_labels rt record (fst first) _ _ _ Hdecode)
      as [rest2 Hsecond].
    exists rest1, rest2. split; [exact Hfirst | exact Hsecond].
  - intros error Hlabels Hsoft. unfold second.
    rewrite (TSFacts.recordHandler_failed rt _ _ _ _ _ _ Hdecode Hlabels).
    rewrite (TSFacts.on_labeling_error_soft rt _ _ _ _ Hsoft). cbv zeta.
    fold labels.
    destruct (snd (TS.getParameter rt _ _)) as [e | apiUrl].
    + exists []. simpl. repeat rewrite <- app_assoc. reflexivity.
    + destruct (snd (TS.getSecret rt _ _)) as [e | apiKey]; eexists; simpl;
        repeat rewrite <- app_assoc; simpl; reflexivity.
  - intros Hstateless.
    pose proof (TSFacts.uniform_recordHandler rt Hstateless record) as Huniform.
    exists (fst (TS.recordHandler rt record [])).
    assert (Hfirst : first = (h ++ fst (TS.recordHandler rt record []),
                              snd (TS.recordHandler rt record [])))
      by exact (Huniform h).
    assert (Hsecond : second = (fst first ++ fst (TS.recordHandler rt record []),
                                snd (TS.recordHandler rt record [])))
      by exact (Huniform (fst first)).
    rewrite Hsecond, Hfirst. simpl. repeat split.
    clear Hfirst Hsecond Huniform first second Hsoft_run.
    destruct (TS.getLabels_impl rt [] (TS.s3BucketFiles rt) fileId userId key)
      as [error |] eqn:Hlabels.
    + rewrite (TSFacts.recordHandler_failed rt _ _ _ _ _ _ Hdecode Hlabels).
      destruct (TS.is_soft_failure error) eqn:Hkind.
      * rewrite (TSFacts.on_labeling_error_soft rt _ _ _ _ Hkind). cbv zeta.
        destruct (snd (TS.getParameter rt _ _)) as [e | apiUrl]; [reflexivity |].
        destruct (snd (TS.getSecret rt _ _)) as [e | apiKey]; reflexivity.
      * rewrite (TSFacts.on_labeling_error_hard rt _ _ _ _ Hkind). reflexivity.
    + rewrite (TSFacts.recordHandler_labeled rt _ _ _ _ _ Hdecode Hlabels). reflexivity.
  - intros error apiUrl apiKey Hlabels Hsoft Hurl Hkey. unfold second.
    exact (Hsoft_run (fst first) error apiUrl apiKey Hlabels Hsoft Hurl Hkey).
  - intros Hstateless error apiUrl apiKey Hlabels Hsoft Hurl Hkey calls.
    pose proof Hstateless as (Hsame_labels & Hsame_report & _ & _).
    assert (Hfirst := Hsoft_run h error apiUrl apiKey Hlabels Hsoft Hurl Hkey).
    fold first in Hfirst. fold calls in Hfirst.
    assert (Hurl_again :
              forall h0 h0', snd (TS.getParameter rt (TS.apiUrlParameterName rt) h0)
                             = snd (TS.getParameter rt (TS.apiUrlParameterName rt) h0')).
    { intros h0 h0'.
      rewrite (TSFacts.uniform_getParameter rt Hstateless _ h0).
      rewrite (TSFacts.uniform_getParameter rt Hstateless _ h0'). reflexivity. }
    assert (Hkey_again :
              forall h0 h0', snd (TS.getSecret rt (TS.apiKeySecretName rt) h0)
                             = snd (TS.getSecret rt (TS.apiKeySecretName rt) h0')).
    { intros h0 h0'.
      rewrite (TSFacts.uniform_getSecret rt Hstateless _ h0).
      rewrite (TSFacts.uniform_getSecret rt Hstateless _ h0'). reflexivity. }
    assert (Hsecond :
              second
              = ((h ++ calls) ++ calls,
                 TS.settle (TS.reportImageIssue_impl rt
                              ((h ++ calls) ++ [labels; warn; param; secret])
                              fileId userId apiUrl apiKey))).
    { unfold second. rewrite Hfirst. simpl fst.
      apply (Hsoft_run (h ++ calls) error apiUrl apiKey).
      - rewrite (Hsame_labels _ h). exact Hlabels.
      - exact Hsoft.
      - rewrite (Hurl_again _ (h ++ [labels; warn])). exact Hurl.
      - rewrite (Hkey_again _ (h ++ [labels; warn; param])). exact Hkey. }
    rewrite Hsecond, Hfirst. simpl fst. simpl snd. repeat split.
    rewrite (Hsame_report _ (h ++ [labels; warn; param; secret])). reflexivity.
Qed.

Lemma reprocessing_repeats_every_call_witness :
  let first := TS.recordHandler TSExamples.example_rt
                                (TSExamples.record_of "no-person") [] in
  let second := TS.recordHandler TSExamples.example_rt
                                 (TSExamples.record_of "no-person") (fst first) in
  let calls := [TSExamples.labels_call "no-person"; TSExamples.warn_call;
                TS.EvSsmSend TSExamples.url_name; TS.EvSecretsSend TSExamples.key_name;
                TSExamples.report_call "no-person"] in
  fst first = [] ++ calls
  /\ fst second = ([] ++ calls) ++ calls
  /\ snd second = snd first.
Proof.
  destruct (reprocessing_repeats_every_call
              TSExamples.example_rt (TSExamples.record_of "no-person") []
              (TS.JString "no-person") (TS.JString "user-1")
              (TS.JString "transformed/no-person.jpg") eq_refl)
    as (_ & _ & _ & _ & Hrepeat).
  exact (Hrepeat TSFacts.example_rt_stateless
                 (TS.mkThrown TS.NoPersonFoundError "No person found")
                 (TS.JString "https://api.example.com") (TS.JString "s3cr3t")
                 eq_refl eq_refl eq_refl eq_refl).
Defined.

(** C9. The processor takes for granted that a record carries its change
    payload, and reads it without a guard. In the scripting variant a
    record without [dynamodb] makes the handler throw a [TypeError] before
    any call; a record without [NewImage] has [undefined] handed to
    [unmarshall], whose rejection ends the handler before any call; a record
    whose image unmarshalls to an object with entries [id], [userId] and
    [transformedFileKey] has the labeling call issued on those three
    values. In the managed-runtime variant a record that lacks the
    payload, the image or one of the three attributes ends the processor
    with a [NullPointerException] before any call; one that carries them
    has the labeling call issued on the three strings read from it. *)
Theorem payload_is_read_unguarded :
  (forall (rt : TS.Runtime) (record : TS.DynamoDBRecord) (h : TS.History),
      TS.dynamodb record = None ->
      TS.recordHandler rt record h
      = (h, inl (TS.mkThrown TS.TypeError
                   "Cannot read properties of undefined (reading 'NewImage')")))
  /\
  (forall (rt : TS.Runtime) (record : TS.DynamoDBRecord) (sr : TS.StreamRecord)
          (h : TS.History) (e : TS.Thrown),
      TS.dynamodb record = Some sr ->
      TS.NewImage sr = None ->
      TS.unmarshall rt None = inl e ->
      TS.recordHandler rt record h = (h, inl e))
  /\
  (forall (rt : TS.Runtime) (record : TS.DynamoDBRecord) (sr : TS.StreamRecord)
          (image : AttributeMap) (props : list (string * TS.JsValue))
          (fileId userId key : TS.JsValue) (h : TS.History),
      TS.dynamodb record = Some sr ->
      TS.NewImage sr = Some image ->
      TS.unmarshall rt (Some image) = inr (TS.JObject props) ->
      assoc "id" props = Some fileId ->
      assoc "userId" props = Some userId ->
      assoc "transformedFileKey" props = Some key ->
      exists rest,
        fst (TS.recordHandler rt record h)
        = h ++ TS.EvGetLabels (TS.s3BucketFiles rt) fileId userId key :: rest)
  /\
  (forall (rt : Java.Runtime) (r : Java.DynamodbStreamRecord) (st : Java.State),
      Java.carries_payload r = false ->
      Java.processMessage rt r st = (st, inl Java.NPE))
  /\
  (forall (rt : Java.Runtime) (r : Java.DynamodbStreamRecord) (st : Java.State),
      Java.carries_payload r = true ->
      exists sr image a b c rest,
        Java.getDynamodb r = Some sr
        /\ Java.getNewImage sr = Some image
        /\ assoc "id" image = Some a
        /\ assoc "userId" image = Some b
        /\ assoc "transformedFileKey" image = Some c
        /\ Java.history (fst (Java.processMessage rt r st))
           = Java.history st
             ++ Java.EvAppendKey "fileId" (Java.getS a)
             :: Java.EvAppendKey "userId" (Java.getS b)
             :: Java.EvGetLabels (Java.BUCKET_NAME_FILES rt)
                                 (Java.getS a) (Java.getS b) (Java.getS c)
             :: rest).
Proof.
  split; [| split; [| split; [| split]]].
  - intros rt record h Hnone.
    apply TSFacts.recordHandler_undecoded.
    apply TSFacts.decode_without_dynamodb. exact Hnone.
  - intros rt record sr h e Hsome Hnone Hreject.
    apply TSFacts.recordHandler_undecoded.
    apply (TSFacts.decode_rejected_image rt record sr e Hsome).
    rewrite Hnone. exact Hreject.
  - intros rt record sr image props fileId userId key h
           Hsome Himage Hobject Hid Huser Hkey.
    apply TSFacts.recordHandler_starts_with_labels.
    rewrite <- Himage in Hobject.
    rewrite (TSFacts.decode_object rt record sr props Hsome Hobject).
    unfold TS.member. rewrite Hid, Huser, Hkey. reflexivity.
  - intros rt r st Hlacks.
    apply JavaFacts.processMessage_undecoded.
    apply JavaFacts.decode_no_payload. exact Hlacks.
  - intros rt r st Hcarries.
    destruct (JavaFacts.decode_payload r st Hcarries)
      as (sr & image & a & b & c & Hsr & Himage & Ha & Hb & Hc & Hdecode).
    destruct (JavaFacts.processMessage_starts_with_labels rt r st _ _ _ Hdecode)
      as [rest Hrest].
    exists sr, image, a, b, c, rest. auto 10.
Qed.

Lemma payload_is_read_unguarded_witness :
  TS.recordHandler TSExamples.example_rt (TS.mkDynamoDBRecord None (Some "REMOVE") None) []
  = ([], inl (TS.mkThrown TS.TypeError
                "Cannot read properties of undefined (reading 'NewImage')"))
  /\ TS.recordHandler TSExamples.example_rt
       (TS.mkDynamoDBRecord None (Some "REMOVE")
          (Some (TS.mkStreamRecord None None (Some (TSExamples.image_of "portrait")))))
       []
     = ([], inl (TS.mkThrown TS.Error "No value defined: {}"))
  /\ (exists rest,
         fst (TS.recordHandler TSExamples.example_rt (TSExamples.record_of "portrait") [])
         = TSExamples.labels_call "portrait" :: rest)
  /\ Java.processMessage JavaExamples.example_rt
       (Java.mkDynamodbStreamRecord (Some (Java.mkStreamRecord None))) JavaExamples.cold
     = (JavaExamples.cold, inl Java.NPE)
  /\ (exists rest,
         Java.history (fst (Java.processMessage JavaExamples.example_rt
                              (JavaExamples.record_of "portrait") JavaExamples.cold))
         = Java.EvAppendKey "fileId" (Some "portrait")
           :: Java.EvAppendKey "userId" (Some "user-1")
           :: Java.EvGetLabels (Some "files") (Some "portrait") (Some "user-1")
                               (Some "transformed/portrait.jpg")
           :: rest).
Proof.
  destruct payload_is_read_unguarded
    as (Hno_dynamodb & Hno_image & Himage & Hno_payload & Hpayload).
  split; [| split; [| split; [| split]]].
  - apply Hno_dynamodb. reflexivity.
  - eapply Hno_image; reflexivity.
  - destruct (Himage TSExamples.example_rt (TSExamples.record_of "portrait") _ _ _
                     (TS.JString "portrait") (TS.JString "user-1")
                     (TS.JString "transformed/portrait.jpg") []
                     eq_refl eq_refl eq_refl eq_refl eq_refl eq_refl)
      as [rest Hrest].
    exists rest. exact Hrest.
  - apply Hno_payload. reflexivity.
  - destruct (Hpayload JavaExamples.example_rt (JavaExamples.record_of "portrait")
                       JavaExamples.cold eq_refl)
      as (sr & image & a & b & c & rest & Hsr & Himg & Ha & Hb & Hc & Hrun).
    injection Hsr as <-. injection Himg as <-.
    injection Ha as <-. injection Hb as <-. injection Hc as <-.
    exists rest. exact Hrun.
Defined.

(** The second of two soft failures in the managed-runtime variant, a few
    seconds after the first: both providers answer from their caches. *)
Example second_soft_failure_reads_no_store :
  let st1 := fst (Java.processMessage JavaExamples.example_rt
                    (JavaExamples.record_of "no-person") JavaExamples.cold) in
  let st2 := fst (Java.processMessage JavaExamples.example_rt
                    (JavaExamples.record_of "no-labels") st1) in
  Java.count (Java.is_store_read Java.Ssm) (Java.history st1) = 1
  /\ Java.count (Java.is_store_read Java.Secrets) (Java.history st1) = 1
  /\ Java.count (Java.is_store_read Java.Ssm) (Java.history st2) = 1
  /\ Java.count (Java.is_store_read Java.Secrets) (Java.history st2) = 1
  /\ Java.count Java.is_lookup_or_report (Java.history st2) = 6.
Proof. repeat split. Qed.

(** C7, as stated, fails in the managed-runtime variant: it is not the case
    that every soft-failure branch reads the parameter store and the secret
    store. With the example collaborators, the record [no-labels] processed
    right after the record [no-person] fails softly and reads neither
    store, because both providers still hold the values of the first
    branch; it completes all the same. *)
Lemma credentials_read_in_every_branch_counterexample :
  ~ (forall (rt : Java.Runtime) (r : Java.DynamodbStreamRecord) (st : Java.State)
            (fileId userId key : option string) (e : Java.Throwable),
        snd (Java.decode r st) = inr (fileId, userId, key) ->
        Java.getLabels_impl rt (Java.history (Java.labeled fileId userId st))
                            (Java.BUCKET_NAME_FILES rt) fileId userId key = Some e ->
        Java.is_ImageDetectionException e = true ->
        snd (Java.processMessage rt r st) = inr tt ->
        let st' := fst (Java.processMessage rt r st) in
        Java.count (Java.is_store_read Java.Ssm) (Java.history st')
        = S (Java.count (Java.is_store_read Java.Ssm) (Java.history st))
        /\ Java.count (Java.is_store_read Java.Secrets) (Java.history st')
           = S (Java.count (Java.is_store_read Java.Secrets) (Java.history st))).
Proof.
  intros Hclaim.
  pose (st1 := fst (Java.processMessage JavaExamples.example_rt
                      (JavaExamples.record_of "no-person") JavaExamples.cold)).
  destruct (Hclaim JavaExamples.example_rt (JavaExamples.record_of "no-labels") st1
                   (Some "no-labels") (Some "user-1") (Some "transformed/no-labels.jpg")
                   (Java.mkThrowable Java.NoLabelsFoundException (Some "No labels found"))
                   eq_refl eq_refl eq_refl eq_refl) as [Hssm _].
  destruct second_soft_failure_reads_no_store as (H1 & _ & H2 & _).
  fold st1 in H1, H2. cbv zeta in Hssm. rewrite H1, H2 in Hssm. discriminate.
Qed.

(** C7, amended. In the scripting variant nothing is cached: every
    soft-failure branch sends its own request to the parameter store and,
    once the parameter lookup has returned, to the secret store, so that
    two soft failures make two reads of each. In the managed-runtime
    variant each soft-failure branch asks the two providers with a maximum
    age of 900 seconds: while a provider holds an unexpired value the
    branch reads no store and leaves the caches as they are, and a
    provider without one reads its store once and keeps the value for the
    maximum age. *)
Theorem credentials_read_anew_or_within_max_age :
  (forall (rt : TS.Runtime) (r1 r2 : TS.DynamoDBRecord) (h : TS.History)
          (fileId1 userId1 key1 fileId2 userId2 key2 : TS.JsValue)
          (error1 error2 : TS.Thrown) (apiUrl1 apiUrl2 : TS.JsValue),
      let bucket := TS.s3BucketFiles rt in
      let warn := TS.EvLoggerWarn "No person found in the image" in
      let h1 := fst (TS.recordHandler rt r1 h) in
      let h2 := fst (TS.recordHandler rt r2 h1) in
      TS.decode rt r1 = inr (fileId1, userId1, key1) ->
      TS.getLabels_impl rt h bucket fileId1 userId1 key1 = Some error1 ->
      TS.is_soft_failure error1 = true ->
      snd (TS.getParameter rt (TS.apiUrlParameterName rt)
             (h ++ [TS.EvGetLabels bucket fileId1 userId1 key1; warn]))
      = inr apiUrl1 ->
      TS.decode rt r2 = inr (fileId2, userId2, key2) ->
      TS.getLabels_impl rt h1 bucket fileId2 userId2 key2 = Some error2 ->
      TS.is_soft_failure error2 = true ->
      snd (TS.getParameter rt (TS.apiUrlParameterName rt)
             (h1 ++ [TS.EvGetLabels bucket fileId2 userId2 key2; warn]))
      = inr apiUrl2 ->
      TS.count TS.is_parameter_read h2 = 2 + TS.count TS.is_parameter_read h
      /\ TS.count TS.is_secret_read h2 = 2 + TS.count TS.is_secret_read h)
  /\
  (forall (rt : Java.Runtime) (r : Java.DynamodbStreamRecord) (st : Java.State)
          (fileId userId key : option string) (e : Java.Throwable)
          (url_name key_name apiUrl apiKey : string),
      let labels := Java.EvGetLabels (Java.BUCKET_NAME_FILES rt) fileId userId key in
      let warn := Java.EvLoggerWarn "No person found in the image" in
      let ask_url := Java.EvProviderGet Java.Ssm 900 (Some url_name) in
      let ask_key := Java.EvProviderGet Java.Secrets 900 (Some key_name) in
      let report := Java.EvReportImageIssue fileId userId (Some apiUrl) (Some apiKey) in
      let before := Java.history st ++ [Java.EvAppendKey "fileId" fileId;
                                        Java.EvAppendKey "userId" userId] in
      snd (Java.decode r st) = inr (fileId, userId, key) ->
      Java.getLabels_impl rt before (Java.BUCKET_NAME_FILES rt) fileId userId key
      = Some e ->
      Java.is_ImageDetectionException e = true ->
      Java.API_URL_PARAMETER_NAME rt = Some url_name ->
      Java.API_KEY_SECRET_NAME rt = Some key_name ->
      Java.fresh_entry (Java.clock rt (before ++ [labels; warn; ask_url]))
                       (Java.ssmCache st) url_name = Some apiUrl ->
      Java.fresh_entry (Java.clock rt (before ++ [labels; warn; ask_url; ask_key]))
                       (Java.secretsCache st) key_name = Some apiKey ->
      let st' := fst (Java.processMessage rt r st) in
      Java.history st'
      = before ++ [labels; warn; ask_url; ask_key; report;
                   Java.EvRemoveKey "fileId"; Java.EvRemoveKey "userId"]
      /\ Java.ssmCache st' = Java.ssmCache st
      /\ Java.secretsCache st' = Java.secretsCache st
      /\ forall p, Java.count (Java.is_store_read p) (Java.history st')
                   = Java.count (Java.is_store_read p) (Java.history st))
  /\
  (forall (rt : Java.Runtime) (p : Java.ProviderKind) (maxAge : Z) (k v : string)
          (st : Java.State),
      let asked := Java.record_event (Java.EvProviderGet p maxAge (Some k)) st in
      let read := Java.record_event (Java.EvStoreRead p k) asked in
      Java.fresh_entry (Java.clock rt (Java.history asked)) (Java.cache_of p st) k
      = None ->
      Java.store_getValue rt p (Java.history asked) k = inr v ->
      Java.provider_get rt p maxAge (Some k) st
      = (Java.put_in_cache p k
           (Java.mkEntry v (Java.clock rt (Java.history read) + maxAge)) read,
         inr v)).
Proof.
  split; [| split].
  - intros rt r1 r2 h fileId1 userId1 key1 fileId2 userId2 key2 error1 error2
           apiUrl1 apiUrl2 bucket warn h1 h2
           Hdecode1 Hlabels1 Hsoft1 Hurl1 Hdecode2 Hlabels2 Hsoft2 Hurl2.
    destruct (TSFacts.soft_failure_reads rt r1 h _ _ _ _ Hdecode1 Hlabels1 Hsoft1)
      as [Hparam1 Hsecret1].
    destruct (TSFacts.soft_failure_reads rt r2 h1 _ _ _ _ Hdecode2 Hlabels2 Hsoft2)
      as [Hparam2 Hsecret2].
    fold h1 in Hparam1, Hsecret1. fold h2 in Hparam2, Hsecret2.
    rewrite Hparam2, Hparam1.
    rewrite (Hsecret2 _ Hurl2), (Hsecret1 _ Hurl1). split; reflexivity.
  - intros rt r st fileId userId key e url_name key_name apiUrl apiKey
           labels warn ask_url ask_key report before
           Hdecode Hlabels Hcaught Hurl_name Hkey_name Hurl Hkey st'.
    unfold st'.
    rewrite (JavaFacts.processMessage_soft_warm rt r st _ _ _ _ _ _ _ _
               Hdecode Hlabels Hcaught Hurl_name Hkey_name Hurl Hkey).
    simpl fst. simpl. repeat split.
    intros p. unfold before. rewrite <- app_assoc, JavaFacts.count_app_java.
    destruct p; unfold Java.count; simpl; lia.
  - intros rt p maxAge k v st asked read Hstale Hstore.
    exact (JavaFacts.provider_get_cold rt p maxAge k v st Hstale Hstore).
Qed.

Lemma credentials_read_anew_or_within_max_age_witness :
  (let h1 := fst (TS.recordHandler TSExamples.example_rt
                    (TSExamples.record_of "no-person") []) in
   let h2 := fst (TS.recordHandler TSExamples.example_rt
                    (TSExamples.record_of "no-labels") h1) in
   TS.count TS.is_parameter_read h2 = 2 /\ TS.count TS.is_secret_read h2 = 2)
  /\
  (let st1 := fst (Java.processMessage JavaExamples.example_rt
                     (JavaExamples.record_of "no-person") JavaExamples.cold) in
   let st2 := fst (Java.processMessage JavaExamples.example_rt
                     (JavaExamples.record_of "no-labels") st1) in
   forall p, Java.count (Java.is_store_read p) (Java.history st2)
             = Java.count (Java.is_store_read p) (Java.history st1))
  /\
  Java.provider_get JavaExamples.example_rt Java.Ssm 900 (Some JavaExamples.url_name)
                    JavaExamples.cold
  = (Java.mkState [Java.EvProviderGet Java.Ssm 900 (Some JavaExamples.url_name);
                   Java.EvStoreRead Java.Ssm JavaExamples.url_name]
                  [(JavaExamples.url_name, Java.mkEntry "https://api.example.com" 902)]
                  [],
     inr "https://api.example.com").
Proof.
  destruct credentials_read_anew_or_within_max_age as (Hanew & Hwarm & Hcold).
  split; [| split].
  - exact (Hanew TSExamples.example_rt
                 (TSExamples.record_of "no-person") (TSExamples.record_of "no-labels") []
                 (TS.JString "no-person") (TS.JString "user-1")
                 (TS.JString "transformed/no-person.jpg")
                 (TS.JString "no-labels") (TS.JString "user-1")
                 (TS.JString "transformed/no-labels.jpg")
                 (TS.mkThrown TS.NoPersonFoundError "No person found")
                 (TS.mkThrown TS.NoLabelsFoundError "No labels found")
                 (TS.JString "https://api.example.com")
                 (TS.JString "https://api.example.com")
                 eq_refl eq_refl eq_refl eq_refl eq_refl eq_refl eq_refl eq_refl).
  - intros st1 st2 p.
    destruct (Hwarm JavaExamples.example_rt (JavaExamples.record_of "no-labels") st1
                    (Some "no-labels") (Some "user-1") (Some "transformed/no-labels.jpg")
                    (Java.mkThrowable Java.NoLabelsFoundException (Some "No labels found"))
                    JavaExamples.url_name JavaExamples.key_name
                    "https://api.example.com" "s3cr3t"
                    eq_refl eq_refl eq_refl eq_refl eq_refl eq_refl eq_refl)
      as (_ & _ & _ & Hreads).
    exact (Hreads p).
  - exact (Hcold JavaExamples.example_rt Java.Ssm 900%Z JavaExamples.url_name
                 "https://api.example.com" JavaExamples.cold eq_refl eq_refl).
Defined.

(** ** Further properties of the scripting variant *)

Module TSMore.
Import TS.
Local Open Scope async_scope.

(** The calls one record can give rise to: none, the labeling call alone,
    or the labeling call followed by a beginning of the soft branch. *)
Lemma recordHandler_shape (rt : Runtime) (record : DynamoDBRecord) (h : History) :
  (exists e, decode rt record = inl e /\ recordHandler rt record h = (h, inl e))
  \/
  (exists fileId userId key,
      decode rt record = inr (fileId, userId, key)
      /\ let labels := EvGetLabels (s3BucketFiles rt) fileId userId key in
         let warn := EvLoggerWarn "No person found in the image" in
         let param := EvSsmSend (apiUrlParameterName rt) in
         let secret := EvSecretsSend (apiKeySecretName rt) in
         (exists r, recordHandler rt record h = (h ++ [labels], r))
         \/ (exists e, recordHandler rt record h = (h ++ [labels; warn; param], inl e))
         \/ (exists e,
                recordHandler rt record h = (h ++ [labels; warn; param; secret], inl e))
         \/ (exists apiUrl apiKey r,
                recordHandler rt record h
                = (h ++ [labels; warn; param; secret;
                         EvReportImageIssue fileId userId apiUrl apiKey], r))).
Proof.
  destruct (decode rt record) as [e | [[fileId userId] key]] eqn:Hdecode.
  - left. exists e. split; [reflexivity |].
    exact (TSFacts.recordHandler_undecoded rt record h e Hdecode).
  - right. exists fileId, userId, key. split; [reflexivity |]. cbv zeta.
    destruct (getLabels_impl rt h (s3BucketFiles rt) fileId userId key)
      as [error |] eqn:Hlabels.
    + rewrite (TSFacts.recordHandler_failed rt _ _ _ _ _ _ Hdecode Hlabels).
      destruct (is_soft_failure error) eqn:Hkind.
      * rewrite (TSFacts.on_labeling_error_soft rt _ _ _ _ Hkind). cbv zeta.
        repeat rewrite <- app_assoc. simpl app.
        destruct (snd (getParameter rt _ _)) as [e | apiUrl].
        -- right. left. exists e. reflexivity.
        -- destruct (snd (getSecret rt _ _)) as [e | apiKey].
           ++ right. right. left. exists e. reflexivity.
           ++ right. right. right. eexists. eexists. eexists.
              rewrite <- app_assoc. reflexivity.
      * rewrite (TSFacts.on_labeling_error_hard rt _ _ _ _ Hkind).
        left. eexists. reflexivity.
    + rewrite (TSFacts.recordHandler_labeled rt _ _ _ _ _ Hdecode Hlabels).
      left. eexists. reflexivity.
Qed.

(** The calls of one record, counted by kind. *)
Lemma recordHandler_counts (rt : Runtime) (record : DynamoDBRecord) (h : History) :
  exists calls,
    fst (recordHandler rt record h) = h ++ calls
    /\ count is_labeling_call calls <= 1
    /\ count is_parameter_read calls <= count is_labeling_call calls
    /\ count is_secret_read calls <= count is_parameter_read calls
    /\ count is_report_call calls <= count is_secret_read calls
    /\ length calls <= 5
    /\ (snd (recordHandler rt record h) = inr tt -> count is_labeling_call calls = 1).
Proof.
  destruct (recordHandler_shape rt record h)
    as [(e & _ & Hrun)
       | (fileId & userId & key & _ &
          [(r & Hrun) | [(e & Hrun) | [(e & Hrun) | (apiUrl & apiKey & r & Hrun)]]])];
    rewrite Hrun; simpl fst; simpl snd.
  - exists []. rewrite app_nil_r. unfold count. simpl.
    repeat split; try lia. discriminate.
  - eexists. split; [reflexivity |]. unfold count. simpl. repeat split; lia.
  - eexists. split; [reflexivity |]. unfold count. simpl. repeat split; lia.
  - eexists. split; [reflexivity |]. unfold count. simpl. repeat split; lia.
  - eexists. split; [reflexivity |]. unfold count. simpl. repeat split; lia.
Qed.

(** *** The loop over a batch *)

Lemma process_records_app (rt : Runtime) (pre post : list DynamoDBRecord) (h : History) :
  process_records rt (pre ++ post) h
  = match process_records rt pre h with
    | (h', inr _) => process_records rt post h'
    | (h', inl e) => (h', inl e)
    end.
Proof.
  revert h. induction pre as [| record pre IH]; intros h.
  - reflexivity.
  - simpl. unfold bind, try_catch.
    destruct (recordHandler rt record h) as [h1 [e | []]].
    + reflexivity.
    + apply IH.
Qed.

Lemma process_records_error (rt : Runtime) (records : list DynamoDBRecord)
      (h h' : History) (e : Thrown) :
  process_records rt records h = (h', inl e) ->
  e = mkThrown Error "Error processing record".
Proof.
  revert h. induction records as [| record rest IH]; intros h.
  - discriminate.
  - simpl. unfold bind, try_catch.
    destruct (recordHandler rt record h) as [h1 [e1 | []]].
    + unfold throw. intros Hrun. injection Hrun as _ <-. reflexivity.
    + apply IH.
Qed.

Lemma process_records_counts (rt : Runtime) (records : list DynamoDBRecord) (h : History) :
  exists calls,
    fst (process_records rt records h) = h ++ calls
    /\ count is_labeling_call calls <= length records
    /\ count is_parameter_read calls <= count is_labeling_call calls
    /\ count is_secret_read calls <= count is_parameter_read calls
    /\ count is_report_call calls <= count is_secret_read calls
    /\ (snd (process_records rt records h) = inr tt ->
        count is_labeling_call calls = length records).
Proof.
  revert h. induction records as [| record rest IH]; intros h.
  - exists []. simpl. rewrite app_nil_r. unfold count. simpl. repeat split; lia.
  - destruct (recordHandler_counts rt record h)
      as (calls1 & Hcalls1 & Hlab1 & Hpar1 & Hsec1 & Hrep1 & _ & Hnormal1).
    simpl. unfold bind, try_catch.
    destruct (recordHandler rt record h) as [h1 [e1 | []]]; simpl in Hcalls1, Hnormal1.
    + exists calls1. simpl. repeat split; try assumption; try lia. discriminate.
    + subst h1.
      destruct (IH (h ++ calls1))
        as (calls2 & Hcalls2 & Hlab2 & Hpar2 & Hsec2 & Hrep2 & Hnormal2).
      exists (calls1 ++ calls2).
      rewrite Hcalls2, <- app_assoc, !TSFacts.count_app.
      specialize (Hnormal1 eq_refl).
      repeat split; try lia.
      intros Hnormal. specialize (Hnormal2 Hnormal). lia.
Qed.

Lemma uniform_process_records (rt : Runtime) (records : list DynamoDBRecord) :
  stateless rt -> uniform (process_records rt records).
Proof.
  intros Hstateless. induction records as [| record rest IH]; simpl.
  - apply TSFacts.uniform_ret.
  - apply TSFacts.uniform_bind; [| intros _; exact IH].
    apply TSFacts.uniform_try_catch.
    + apply TSFacts.uniform_recordHandler. exact Hstateless.
    + intros e. apply TSFacts.uniform_throw.
Qed.

(** The run of a soft failure, from the record handler. *)
Lemma recordHandler_soft (rt : Runtime) (record : DynamoDBRecord) (h : History)
      (fileId userId key : JsValue) (error : Thrown) :
  let labels := EvGetLabels (s3BucketFiles rt) fileId userId key in
  let warn := EvLoggerWarn "No person found in the image" in
  let h1 := h ++ [labels; warn] in
  let h2 := h1 ++ [EvSsmSend (apiUrlParameterName rt)] in
  let h3 := h2 ++ [EvSecretsSend (apiKeySecretName rt)] in
  decode rt record = inr (fileId, userId, key) ->
  getLabels_impl rt h (s3BucketFiles rt) fileId userId key = Some error ->
  is_soft_failure error = true ->
  recordHandler rt record h
  = match snd (getParameter rt (apiUrlParameterName rt) h1) with
    | inl e => (h2, inl e)
    | inr apiUrl =>
        match snd (getSecret rt (apiKeySecretName rt) h2) with
        | inl e => (h3, inl e)
        | inr apiKey =>
            (h3 ++ [EvReportImageIssue fileId userId apiUrl apiKey],
             settle (reportImageIssue_impl rt h3 fileId userId apiUrl apiKey))
        end
    end.
Proof.
  intros labels warn h1 h2 h3 Hdecode Hlabels Hsoft.
  rewrite (TSFacts.recordHandler_failed rt _ _ _ _ _ _ Hdecode Hlabels).
  rewrite (TSFacts.on_labeling_error_soft rt _ _ _ _ Hsoft).
  unfold h3, h2, h1. cbv zeta. repeat rewrite <- app_assoc. reflexivity.
Qed.

End TSMore.

(** X1. Whatever the collaborators answer, one application of the record
    handler only adds calls to the history, and the calls it adds are one
    of five sequences: none, when the record cannot be decoded, and the
    handler throws; the labeling call alone; the labeling call, the warning
    and the parameter read, and the handler throws; these three and the
    secret read, and the handler throws; or these four and the report
    call. So a run makes at most five calls and at most one of each kind,
    reads the parameter store only after the labeling call, the secret
    store only after the parameter store, and files the report only after
    it has read the secret store. When it returns normally it has made its
    labeling call. *)
Theorem record_calls_are_ordered_and_bounded
        (rt : TS.Runtime) (record : TS.DynamoDBRecord) (h : TS.History) :
  exists calls,
    fst (TS.recordHandler rt record h) = h ++ calls
    /\ TS.count TS.is_labeling_call calls <= 1
    /\ TS.count TS.is_parameter_read calls <= TS.count TS.is_labeling_call calls
    /\ TS.count TS.is_secret_read calls <= TS.count TS.is_parameter_read calls
    /\ TS.count TS.is_report_call calls <= TS.count TS.is_secret_read calls
    /\ length calls <= 5
    /\ (snd (TS.recordHandler rt record h) = inr tt ->
        TS.count TS.is_labeling_call calls = 1)
    /\ ((calls = []
         /\ exists e, TS.decode rt record = inl e
                      /\ snd (TS.recordHandler rt record h) = inl e)
        \/
        (exists fileId userId key,
            TS.decode rt record = inr (fileId, userId, key)
            /\ let labels := TS.EvGetLabels (TS.s3BucketFiles rt) fileId userId key in
               let warn := TS.EvLoggerWarn "No person found in the image" in
               let param := TS.EvSsmSend (TS.apiUrlParameterName rt) in
               let secret := TS.EvSecretsSend (TS.apiKeySecretName rt) in
               calls = [labels]
               \/ (calls = [labels; warn; param]
                   /\ exists e, snd (TS.recordHandler rt record h) = inl e)
               \/ (calls = [labels; warn; param; secret]
                   /\ exists e, snd (TS.recordHandler rt record h) = inl e)
               \/ (exists apiUrl apiKey,
                      calls = [labels; warn; param; secret;
                               TS.EvReportImageIssue fileId userId apiUrl apiKey]))).
Proof.
  destruct (TSMore.recordHandler_shape rt record h)
    as [(e & Hdecode & Hrun)
       | (fileId & userId & key & Hdecode &
          [(r & Hrun) | [(e & Hrun) | [(e & Hrun) | (apiUrl & apiKey & r & Hrun)]]])];
    rewrite Hrun; simpl fst; simpl snd.
  - exists []. rewrite app_nil_r. unfold TS.count. simpl.
    repeat split; try lia; try discriminate.
    left. split; [reflexivity |]. exists e. split; [exact Hdecode | reflexivity].
  - eexists. split; [reflexivity |]. unfold TS.count. simpl.
    repeat split; try lia.
    right. exists fileId, userId, key. split; [exact Hdecode |]. left. reflexivity.
  - eexists. split; [reflexivity |]. unfold TS.count. simpl.
    repeat split; try lia.
    right. exists fileId, userId, key. split; [exact Hdecode |].
    right. left. split; [reflexivity |]. exists e. reflexivity.
  - eexists. split; [reflexivity |]. unfold TS.count. simpl.
    repeat split; try lia.
    right. exists fileId, userId, key. split; [exact Hdecode |].
    right. right. left. split; [reflexivity |]. exists e. reflexivity.
  - eexists. split; [reflexivity |]. unfold TS.count. simpl.
    repeat split; try lia.
    right. exists fileId, userId, key. split; [exact Hdecode |].
    right. right. right. exists apiUrl, apiKey. reflexivity.
Qed.

(** X2. A batch of n records makes at most n labeling calls, and no more
    parameter reads than labeling calls, secret reads than parameter reads,
    reports than secret reads. When the handler returns normally it has
    made exactly one labeling call for every record of the batch. *)
Theorem batch_calls_are_bounded_by_its_size
        (rt : TS.Runtime) (event : TS.DynamoDBStreamEvent) (h : TS.History) :
  exists calls,
    fst (TS.handler rt event h) = h ++ calls
    /\ TS.count TS.is_labeling_call calls <= length (TS.Records event)
    /\ TS.count TS.is_parameter_read calls <= TS.count TS.is_labeling_call calls
    /\ TS.count TS.is_secret_read calls <= TS.count TS.is_parameter_read calls
    /\ TS.count TS.is_report_call calls <= TS.count TS.is_secret_read calls
    /\ (snd (TS.handler rt event h) = inr tt ->
        TS.count TS.is_labeling_call calls = length (TS.Records event)).
Proof.
  exact (TSMore.process_records_counts rt (TS.Records event) h).
Qed.

(** X3. The exported handler never lets the error of a record out: when it
    fails, whatever the record handler threw, the error it throws is a new
    [Error] with the message [Error processing record]. *)
Theorem handler_throws_only_its_own_error
        (rt : TS.Runtime) (event : TS.DynamoDBStreamEvent) (h h' : TS.History)
        (e : TS.Thrown) :
  TS.handler rt event h = (h', inl e) ->
  e = TS.mkThrown TS.Error "Error processing record".
Proof.
  exact (TSMore.process_records_error rt (TS.Records event) h h' e).
Qed.

Lemma handler_throws_only_its_own_error_witness :
  snd (TS.recordHandler TSCases.rt_rejecting_ssm (TSExamples.record_of "no-person") [])
  = inl TSCases.throttled
  /\ snd (TS.handler TSCases.rt_rejecting_ssm
            (TS.mkDynamoDBStreamEvent [TSExamples.record_of "no-person"]) [])
     = inl (TS.mkThrown TS.Error "Error processing record").
Proof.
  split; [reflexivity |].
  exact (f_equal (@inl TS.Thrown unit)
           (handler_throws_only_its_own_error
              TSCases.rt_rejecting_ssm
              (TS.mkDynamoDBStreamEvent [TSExamples.record_of "no-person"]) []
              [TSExamples.labels_call "no-person"; TSExamples.warn_call;
               TS.EvSsmSend TSExamples.url_name]
              (TS.mkThrown TS.Error "Error processing record") eq_refl)).
Defined.

(** X4. A batch is processed record after record: the handler on a batch
    cut in two behaves as the handler on the first part followed, when that
    part returned normally, by the handler on the second part from the
    history reached; when the first part failed, the second part is not
    looked at. *)
Theorem batch_is_processed_in_sequence
        (rt : TS.Runtime) (pre post : list TS.DynamoDBRecord) (h : TS.History) :
  TS.handler rt (TS.mkDynamoDBStreamEvent (pre ++ post)) h
  = match TS.handler rt (TS.mkDynamoDBStreamEvent pre) h with
    | (h', inr _) => TS.handler rt (TS.mkDynamoDBStreamEvent post) h'
    | (h', inl e) => (h', inl e)
    end.
Proof.
  exact (TSMore.process_records_app rt pre post h).
Qed.

(** X5. A soft failure does not stop the batch: when the labeling call of
    the first record fails with the no-person or no-labels classification
    and both lookups and the report return, the handler goes on with the
    remaining records from the history of the five calls made. *)
Theorem soft_failure_does_not_stop_the_batch
        (rt : TS.Runtime) (record : TS.DynamoDBRecord) (rest : list TS.DynamoDBRecord)
        (h : TS.History) (fileId userId key : TS.JsValue) (error : TS.Thrown)
        (apiUrl apiKey : TS.JsValue) :
  let labels := TS.EvGetLabels (TS.s3BucketFiles rt) fileId userId key in
  let warn := TS.EvLoggerWarn "No person found in the image" in
  let param := TS.EvSsmSend (TS.apiUrlParameterName rt) in
  let secret := TS.EvSecretsSend (TS.apiKeySecretName rt) in
  TS.decode rt record = inr (fileId, userId, key) ->
  TS.getLabels_impl rt h (TS.s3BucketFiles rt) fileId userId key = Some error ->
  TS.is_soft_failure error = true ->
  snd (TS.getParameter rt (TS.apiUrlParameterName rt) (h ++ [labels; warn]))
  = inr apiUrl ->
  snd (TS.getSecret rt (TS.apiKeySecretName rt) (h ++ [labels; warn; param]))
  = inr apiKey ->
  TS.reportImageIssue_impl rt (h ++ [labels; warn; param; secret])
                           fileId userId apiUrl apiKey = None ->
  TS.handler rt (TS.mkDynamoDBStreamEvent (record :: rest)) h
  = TS.handler rt (TS.mkDynamoDBStreamEvent rest)
               (h ++ [labels; warn; param; secret;
                      TS.EvReportImageIssue fileId userId apiUrl apiKey]).
Proof.
  intros labels warn param secret Hdecode Hlabels Hsoft Hurl Hkey Hreport.
  unfold TS.handler. simpl TS.Records.
  apply TSFacts.process_records_continue.
  rewrite (TSFacts.recordHandler_failed rt _ _ _ _ _ _ Hdecode Hlabels).
  rewrite (TSFacts.on_labeling_error_soft rt _ _ _ _ Hsoft).
  fold labels warn param secret.
  repeat rewrite <- app_assoc. simpl app.
  rewrite Hurl, Hkey, Hreport. rewrite <- app_assoc. reflexivity.
Qed.

Lemma soft_failure_does_not_stop_the_batch_witness :
  TS.handler TSExamples.example_rt
             (TS.mkDynamoDBStreamEvent
                [TSExamples.record_of "no-person"; TSExamples.record_of "portrait"]) []
  = ([TSExamples.labels_call "no-person"; TSExamples.warn_call;
      TS.EvSsmSend TSExamples.url_name; TS.EvSecretsSend TSExamples.key_name;
      TSExamples.report_call "no-person"; TSExamples.labels_call "portrait"],
     inr tt).
Proof.
  rewrite (soft_failure_does_not_stop_the_batch
             TSExamples.example_rt (TSExamples.record_of "no-person")
             [TSExamples.record_of "portrait"] []
             (TS.JString "no-person") (TS.JString "user-1")
             (TS.JString "transformed/no-person.jpg")
             (TS.mkThrown TS.NoPersonFoundError "No person found")
             (TS.JString "https://api.example.com") (TS.JString "s3cr3t")
             eq_refl eq_refl eq_refl eq_refl eq_refl eq_refl).
  reflexivity.
Defined.

(** X6. Nothing catches what goes wrong inside the soft branch. When the
    parameter store rejects the request, the record handler ends with that
    rejection and asks neither the secret store nor the reporting API;
    when the secret store rejects, it ends with that rejection and files no
    report; when the reporting API rejects, it ends with that rejection. *)
Theorem failures_of_the_soft_branch_propagate
        (rt : TS.Runtime) (record : TS.DynamoDBRecord) (h : TS.History)
        (fileId userId key : TS.JsValue) (error : TS.Thrown) :
  let labels := TS.EvGetLabels (TS.s3BucketFiles rt) fileId userId key in
  let warn := TS.EvLoggerWarn "No person found in the image" in
  let url_name := TS.apiUrlParameterName rt in
  let key_name := TS.apiKeySecretName rt in
  let h1 := h ++ [labels; warn] in
  let h2 := h1 ++ [TS.EvSsmSend url_name] in
  let h3 := h2 ++ [TS.EvSecretsSend key_name] in
  TS.decode rt record = inr (fileId, userId, key) ->
  TS.getLabels_impl rt h (TS.s3BucketFiles rt) fileId userId key = Some error ->
  TS.is_soft_failure error = true ->
  (forall e,
      TS.ssmClient_send rt h1 url_name = inl e ->
      TS.recordHandler rt record h = (h2, inl e))
  /\
  (forall apiUrl e,
      snd (TS.getParameter rt url_name h1) = inr apiUrl ->
      TS.secretsClient_send rt h2 key_name = inl e ->
      TS.recordHandler rt record h = (h3, inl e))
  /\
  (forall apiUrl apiKey e,
      snd (TS.getParameter rt url_name h1) = inr apiUrl ->
      snd (TS.getSecret rt key_name h2) = inr apiKey ->
      TS.reportImageIssue_impl rt h3 fileId userId apiUrl apiKey = Some e ->
      TS.recordHandler rt record h
      = (h3 ++ [TS.EvReportImageIssue fileId userId apiUrl apiKey], inl e)).
Proof.
  intros labels warn url_name key_name h1 h2 h3 Hdecode Hlabels Hsoft.
  pose proof (TSMore.recordHandler_soft rt record h _ _ _ _ Hdecode Hlabels Hsoft)
    as Hrun.
  cbv zeta in Hrun. fold labels warn url_name key_name h1 h2 h3 in Hrun.
  split; [| split].
  - intros e Hsend.
    rewrite Hrun, (TSFacts.getParameter_rejected rt _ _ _ Hsend). reflexivity.
  - intros apiUrl e Hurl Hsend.
    rewrite Hrun, Hurl, (TSFacts.getSecret_rejected rt _ _ _ Hsend). reflexivity.
  - intros apiUrl apiKey e Hurl Hkey Hreport.
    rewrite Hrun, Hurl, Hkey, Hreport. reflexivity.
Qed.

Lemma failures_of_the_soft_branch_propagate_witness :
  TS.recordHandler TSCases.rt_rejecting_ssm (TSExamples.record_of "no-person") []
  = ([TSExamples.labels_call "no-person"; TSExamples.warn_call;
      TS.EvSsmSend TSExamples.url_name],
     inl TSCases.throttled)
  /\
  TS.recordHandler TSCases.rt_rejecting_secrets (TSExamples.record_of "no-person") []
  = ([TSExamples.labels_call "no-person"; TSExamples.warn_call;
      TS.EvSsmSend TSExamples.url_name; TS.EvSecretsSend TSExamples.key_name],
     inl TSCases.throttled)
  /\
  TS.recordHandler TSCases.rt_rejecting_report (TSExamples.record_of "no-person") []
  = ([TSExamples.labels_call "no-person"; TSExamples.warn_call;
      TS.EvSsmSend TSExamples.url_name; TS.EvSecretsSend TSExamples.key_name;
      TSExamples.report_call "no-person"],
     inl TSCases.unreachable).
Proof.
  split; [| split].
  - destruct (failures_of_the_soft_branch_propagate
                TSCases.rt_rejecting_ssm (TSExamples.record_of "no-person") []
                (TS.JString "no-person") (TS.JString "user-1")
                (TS.JString "transformed/no-person.jpg")
                (TS.mkThrown TS.NoPersonFoundError "No person found")
                eq_refl eq_refl eq_refl) as (Hparameter & _ & _).
    exact (Hparameter TSCases.throttled eq_refl).
  - destruct (failures_of_the_soft_branch_propagate
                TSCases.rt_rejecting_secrets (TSExamples.record_of "no-person") []
                (TS.JString "no-person") (TS.JString "user-1")
                (TS.JString "transformed/no-person.jpg")
                (TS.mkThrown TS.NoPersonFoundError "No person found")
                eq_refl eq_refl eq_refl) as (_ & Hsecret & _).
    exact (Hsecret (TS.JString "https://api.example.com") TSCases.throttled
                   eq_refl eq_refl).
  - destruct (failures_of_the_soft_branch_propagate
                TSCases.rt_rejecting_report (TSExamples.record_of "no-person") []
                (TS.JString "no-person") (TS.JString "user-1")
                (TS.JString "transformed/no-person.jpg")
                (TS.mkThrown TS.NoPersonFoundError "No person found")
                eq_refl eq_refl eq_refl) as (_ & _ & Hreport).
    exact (Hreport (TS.JString "https://api.example.com") (TS.JString "s3cr3t")
                   TSCases.unreachable eq_refl eq_refl eq_refl).
Defined.

(** X7. A lookup sends one request to its store and no more, whatever
    the store answers and however the lookup ends: [getParameter] adds one
    [GetParameterCommand] to the history, [getSecret] one
    [GetSecretValueCommand]. Neither retries. *)
Theorem lookups_send_exactly_one_request
        (rt : TS.Runtime) (name : string) (h : TS.History) :
  fst (TS.getParameter rt name h) = h ++ [TS.EvSsmSend name]
  /\ fst (TS.getSecret rt name h) = h ++ [TS.EvSecretsSend name].
Proof.
  split.
  - exact (TSFacts.getParameter_history rt name h).
  - exact (TSFacts.getSecret_history rt name h).
Qed.

(** X8. When the stored text is the JSON document [null], the lookup
    neither returns nor reports a missing value: reading the member of
    [null] throws a [TypeError] that names the lookup. *)
Theorem null_document_makes_the_lookup_throw
        (rt : TS.Runtime) (name : string) (h : TS.History) (text : string) :
  text <> "" ->
  TS.JSON_parse rt text = inr TS.JNull ->
  let failure :=
    TS.mkThrown TS.TypeError
                ("Cannot read properties of null (reading '" ++ name ++ "')") in
  (forall response : TS.GetParameterResult,
      TS.ssmClient_send rt h name = inr response ->
      TS.optional_Value (TS.Parameter_ response) = Some text ->
      snd (TS.getParameter rt name h) = inl failure)
  /\
  (forall response : TS.GetSecretValueResponse,
      TS.secretsClient_send rt h name = inr response ->
      TS.SecretString response = Some text ->
      snd (TS.getSecret rt name h) = inl failure).
Proof.
  intros Hnonempty Hparse failure. split.
  - intros response Hsend Hvalue.
    rewrite (TSFacts.getParameter_present rt _ _ _ _ Hsend Hvalue Hnonempty), Hparse.
    reflexivity.
  - intros response Hsend Hvalue.
    rewrite (TSFacts.getSecret_present rt _ _ _ _ Hsend Hvalue Hnonempty), Hparse.
    reflexivity.
Qed.

Lemma null_document_makes_the_lookup_throw_witness :
  snd (TS.getParameter TSCases.rt_null_documents TSExamples.url_name [])
  = inl (TS.mkThrown TS.TypeError
           "Cannot read properties of null (reading '/workshop/api-url')")
  /\ snd (TS.getSecret TSCases.rt_null_documents TSExamples.key_name [])
     = inl (TS.mkThrown TS.TypeError
              "Cannot read properties of null (reading 'workshop/api-key')").
Proof.
  split.
  - destruct (null_document_makes_the_lookup_throw
                TSCases.rt_null_documents TSExamples.url_name [] "null"
                ltac:(discriminate) eq_refl) as [Hparameter _].
    exact (Hparameter _ eq_refl eq_refl).
  - destruct (null_document_makes_the_lookup_throw
                TSCases.rt_null_documents TSExamples.key_name [] "null"
                ltac:(discriminate) eq_refl) as [_ Hsecret].
    exact (Hsecret _ eq_refl eq_refl).
Defined.

(** X9. The handler does not check what a lookup returned. When the
    parameter document has no entry under the parameter's name (and the
    object inherits none), the parameter lookup returns [undefined], the
    secret is still looked up, and the report is filed with [undefined] as
    its API URL; the record handler ends as that report call ends. *)
Theorem undefined_credential_is_reported_as_is
        (rt : TS.Runtime) (record : TS.DynamoDBRecord) (h : TS.History)
        (fileId userId key : TS.JsValue) (error : TS.Thrown)
        (response : TS.GetParameterResult) (text : string)
        (props : list (string * TS.JsValue)) (apiKey : TS.JsValue) :
  let labels := TS.EvGetLabels (TS.s3BucketFiles rt) fileId userId key in
  let warn := TS.EvLoggerWarn "No person found in the image" in
  let url_name := TS.apiUrlParameterName rt in
  let key_name := TS.apiKeySecretName rt in
  let h1 := h ++ [labels; warn] in
  let h2 := h1 ++ [TS.EvSsmSend url_name] in
  let h3 := h2 ++ [TS.EvSecretsSend key_name] in
  TS.decode rt record = inr (fileId, userId, key) ->
  TS.getLabels_impl rt h (TS.s3BucketFiles rt) fileId userId key = Some error ->
  TS.is_soft_failure error = true ->
  TS.ssmClient_send rt h1 url_name = inr response ->
  TS.optional_Value (TS.Parameter_ response) = Some text ->
  text <> "" ->
  TS.JSON_parse rt text = inr (TS.JObject props) ->
  assoc url_name props = None ->
  TS.builtin_member rt (TS.JObject props) url_name = TS.JUndefined ->
  snd (TS.getSecret rt key_name h2) = inr apiKey ->
  TS.recordHandler rt record h
  = (h3 ++ [TS.EvReportImageIssue fileId userId TS.JUndefined apiKey],
     TS.settle (TS.reportImageIssue_impl rt h3 fileId userId TS.JUndefined apiKey)).
Proof.
  intros labels warn url_name key_name h1 h2 h3 Hdecode Hlabels Hsoft
         Hsend Hvalue Hnonempty Hparse Hentry Hinherit Hkey.
  pose proof (TSMore.recordHandler_soft rt record h _ _ _ _ Hdecode Hlabels Hsoft)
    as Hrun.
  cbv zeta in Hrun. fold labels warn url_name key_name h1 h2 h3 in Hrun.
  rewrite Hrun.
  rewrite (TSFacts.getParameter_present rt _ _ _ _ Hsend Hvalue Hnonempty), Hparse.
  simpl. rewrite Hentry, Hinherit, Hkey. reflexivity.
Qed.

Lemma undefined_credential_is_reported_as_is_witness :
  TS.recordHandler TSCases.rt_other_key (TSExamples.record_of "no-person") []
  = ([TSExamples.labels_call "no-person"; TSExamples.warn_call;
      TS.EvSsmSend TSExamples.url_name; TS.EvSecretsSend TSExamples.key_name;
      TS.EvReportImageIssue (TS.JString "no-person") (TS.JString "user-1")
                            TS.JUndefined (TS.JString "s3cr3t")],
     inr tt).
Proof.
  apply (undefined_credential_is_reported_as_is
           TSCases.rt_other_key (TSExamples.record_of "no-person") []
           (TS.JString "no-person") (TS.JString "user-1")
           (TS.JString "transformed/no-person.jpg")
           (TS.mkThrown TS.NoPersonFoundError "No person found")
           (TS.mkGetParameterResult
              (Some (TS.mkSsmParameter
                       (Some (TSExamples.json_entry "url" "https://api.example.com")))))
           (TSExamples.json_entry "url" "https://api.example.com")
           [("url", TS.JString "https://api.example.com")]
           (TS.JString "s3cr3t"));
    try reflexivity.
  discriminate.
Defined.

(** X10. An image without an attribute does not stop the scripting
    variant: the three values are read as members of the unmarshalled
    object, and a value that the object has no entry for is whatever the
    runtime gives for the missing member. With an image that has no [id]
    the labeling call is issued all the same, with [undefined] as file
    id. *)
Theorem missing_attribute_reaches_the_labeling_call
        (rt : TS.Runtime) (record : TS.DynamoDBRecord) (sr : TS.StreamRecord)
        (props : list (string * TS.JsValue)) (h : TS.History) :
  TS.dynamodb record = Some sr ->
  TS.unmarshall rt (TS.NewImage sr) = inr (TS.JObject props) ->
  assoc "id" props = None ->
  TS.builtin_member rt (TS.JObject props) "id" = TS.JUndefined ->
  exists rest,
    fst (TS.recordHandler rt record h)
    = h ++ TS.EvGetLabels (TS.s3BucketFiles rt) TS.JUndefined
                          (TS.member rt props "userId")
                          (TS.member rt props "transformedFileKey")
        :: rest.
Proof.
  intros Hsome Hobject Hid Hinherit.
  apply TSFacts.recordHandler_starts_with_labels.
  rewrite (TSFacts.decode_object rt record sr props Hsome Hobject).
  unfold TS.member at 1. rewrite Hid, Hinherit. reflexivity.
Qed.

Lemma missing_attribute_reaches_the_labeling_call_witness :
  exists rest,
    fst (TS.recordHandler TSExamples.example_rt TSCases.record_without_id [])
    = TS.EvGetLabels "files" TS.JUndefined (TS.JString "user-1")
                     (TS.JString "transformed/x.jpg")
      :: rest.
Proof.
  exact (missing_attribute_reaches_the_labeling_call
           TSExamples.example_rt TSCases.record_without_id _ _ []
           eq_refl eq_refl eq_refl eq_refl).
Defined.

(** X11. An environment variable that is not set is replaced by the empty
    string when the module is loaded, and nothing checks it later: without
    [BUCKET_NAME_FILES] the labeling call is issued on the bucket of the
    empty name, and without [API_URL_PARAMETER_NAME] a soft failure sends
    the parameter store a request for the parameter of the empty name. *)
Theorem unset_environment_means_empty_names
        (rt : TS.Runtime) (record : TS.DynamoDBRecord) (h : TS.History)
        (fileId userId key : TS.JsValue) :
  TS.BUCKET_NAME_FILES rt = None ->
  TS.API_URL_PARAMETER_NAME rt = None ->
  TS.decode rt record = inr (fileId, userId, key) ->
  (exists rest,
      fst (TS.recordHandler rt record h)
      = h ++ TS.EvGetLabels "" fileId userId key :: rest)
  /\
  (forall error,
      TS.getLabels_impl rt h "" fileId userId key = Some error ->
      TS.is_soft_failure error = true ->
      exists rest,
        fst (TS.recordHandler rt record h)
        = h ++ TS.EvGetLabels "" fileId userId key
            :: TS.EvLoggerWarn "No person found in the image"
            :: TS.EvSsmSend "" :: rest).
Proof.
  intros Hbucket Hurl Hdecode.
  assert (Hb : TS.s3BucketFiles rt = "")
    by (unfold TS.s3BucketFiles; rewrite Hbucket; reflexivity).
  assert (Hu : TS.apiUrlParameterName rt = "")
    by (unfold TS.apiUrlParameterName; rewrite Hurl; reflexivity).
  split.
  - rewrite <- Hb. exact (TSFacts.recordHandler_starts_with_labels rt _ h _ _ _ Hdecode).
  - intros error Hlabels Hsoft. rewrite <- Hb in Hlabels.
    rewrite (TSMore.recordHandler_soft rt record h _ _ _ _ Hdecode Hlabels Hsoft).
    cbv zeta. rewrite Hb, Hu.
    destruct (snd (TS.getParameter rt "" _)) as [e | apiUrl].
    + exists []. simpl. rewrite <- app_assoc. reflexivity.
    + destruct (snd (TS.getSecret rt _ _)) as [e | apiKey]; eexists; simpl;
        repeat rewrite <- app_assoc; simpl; reflexivity.
Qed.

Lemma unset_environment_means_empty_names_witness :
  TS.recordHandler TSCases.rt_unset_environment (TSExamples.record_of "no-person") []
  = ([TS.EvGetLabels "" (TS.JString "no-person") (TS.JString "user-1")
                     (TS.JString "transformed/no-person.jpg");
      TSExamples.warn_call; TS.EvSsmSend ""],
     inl (TS.mkThrown TS.Error "Unable to get parameter "))
  /\ exists rest,
       fst (TS.recordHandler TSCases.rt_unset_environment
                             (TSExamples.record_of "no-person") [])
       = TS.EvGetLabels "" (TS.JString "no-person") (TS.JString "user-1")
                        (TS.JString "transformed/no-person.jpg")
         :: TSExamples.warn_call :: TS.EvSsmSend "" :: rest.
Proof.
  split; [reflexivity |].
  destruct (unset_environment_means_empty_names
              TSCases.rt_unset_environment (TSExamples.record_of "no-person") []
              (TS.JString "no-person") (TS.JString "user-1")
              (TS.JString "transformed/no-person.jpg")
              eq_refl eq_refl eq_refl) as [_ Hsoft].
  exact (Hsoft (TS.mkThrown TS.NoPersonFoundError "No person found") eq_refl eq_refl).
Defined.

(** X12. Nothing guards against processing a batch again: with
    collaborators that answer equal requests equally, the handler applied a
    second time to the same batch repeats the calls of the first
    application, one for one, and ends as the first did. *)
Theorem reprocessing_a_batch_repeats_every_call
        (rt : TS.Runtime) (event : TS.DynamoDBStreamEvent) (h : TS.History) :
  TS.stateless rt ->
  exists calls,
    fst (TS.handler rt event h) = h ++ calls
    /\ TS.handler rt event (h ++ calls)
       = ((h ++ calls) ++ calls, snd (TS.handler rt event h)).
Proof.
  intros Hstateless.
  pose proof (TSMore.uniform_process_records rt (TS.Records event) Hstateless)
    as Huniform.
  exists (fst (TS.handler rt event [])). unfold TS.handler in *. split.
  - rewrite (Huniform h). reflexivity.
  - rewrite (Huniform (h ++ _)), (Huniform h). reflexivity.
Qed.

Lemma reprocessing_a_batch_repeats_every_call_witness :
  exists calls,
    fst (TS.handler TSExamples.example_rt
                    (TS.mkDynamoDBStreamEvent
                       [TSExamples.record_of "portrait"; TSExamples.record_of "no-labels"])
                    [])
    = [] ++ calls
    /\ TS.handler TSExamples.example_rt
                  (TS.mkDynamoDBStreamEvent
                     [TSExamples.record_of "portrait"; TSExamples.record_of "no-labels"])
                  ([] ++ calls)
       = (([] ++ calls) ++ calls, inr tt).
Proof.
  exact (reprocessing_a_batch_repeats_every_call
           TSExamples.example_rt
           (TS.mkDynamoDBStreamEvent
              [TSExamples.record_of "portrait"; TSExamples.record_of "no-labels"])
           [] TSFacts.example_rt_stateless).
Defined.

(** ** Further properties of the managed-runtime variant *)

Module JavaMore.
Import Java.
Local Open Scope exec_scope.

Lemma keys_removed_history (st : State) :
  history (keys_removed st)
  = history st ++ [EvRemoveKey "fileId"; EvRemoveKey "userId"].
Proof.
  unfold keys_removed, record_event. simpl. rewrite <- app_assoc. reflexivity.
Qed.

Lemma labeled_history (fileId userId : option string) (st : State) :
  history (labeled fileId userId st)
  = history st ++ [EvAppendKey "fileId" fileId; EvAppendKey "userId" userId].
Proof.
  unfold labeled, record_event. simpl. rewrite <- app_assoc. reflexivity.
Qed.

(** The guarded part of the processor: the labeling call, then whatever
    the catch clause adds. *)
Lemma guarded_history (rt : Runtime) (fileId userId key : option string) (st : State) :
  exists calls,
    history (fst (try_catch_ImageDetection
                    (getLabels rt (BUCKET_NAME_FILES rt) fileId userId key)
                    (on_image_detection rt fileId userId) st))
    = history st ++ EvGetLabels (BUCKET_NAME_FILES rt) fileId userId key :: calls.
Proof.
  unfold try_catch_ImageDetection, getLabels, call.
  destruct (getLabels_impl rt (history st) (BUCKET_NAME_FILES rt) fileId userId key)
    as [e |]; simpl.
  - destruct (is_ImageDetectionException e).
    + destruct (JavaFacts.on_image_detection_history rt fileId userId e
                  (record_event (EvGetLabels (BUCKET_NAME_FILES rt) fileId userId key) st))
        as [rest Hrest].
      exists rest. rewrite Hrest. simpl. rewrite <- app_assoc. reflexivity.
    + exists []. reflexivity.
  - exists []. reflexivity.
Qed.

(** The run of a caught image-detection exception. *)
Lemma processMessage_caught (rt : Runtime) (r : DynamodbStreamRecord) (st : State)
      (fileId userId key : option string) (e : Throwable) :
  let before := labeled fileId userId st in
  let labels := EvGetLabels (BUCKET_NAME_FILES rt) fileId userId key in
  snd (decode r st) = inr (fileId, userId, key) ->
  getLabels_impl rt (history before) (BUCKET_NAME_FILES rt) fileId userId key = Some e ->
  is_ImageDetectionException e = true ->
  processMessage rt r st
  = (keys_removed (fst (on_image_detection rt fileId userId e
                          (record_event labels before))),
     snd (on_image_detection rt fileId userId e (record_event labels before))).
Proof.
  intros before labels Hdecode Hlabels Hcaught.
  rewrite (JavaFacts.processMessage_failed rt _ _ _ _ _ _ Hdecode Hlabels), Hcaught.
  reflexivity.
Qed.

End JavaMore.

(** X13. In the managed-runtime variant the two logging keys are removed
    however the record ends. A record that cannot be decoded sets no key
    and makes no call; for any other record, whether the processor returns
    or throws, its calls begin with the two keys being set and the labeling
    call, and end with the two keys being removed. *)
Theorem logging_keys_are_always_removed
        (rt : Java.Runtime) (r : Java.DynamodbStreamRecord) (st : Java.State) :
  (forall e,
      snd (Java.decode r st) = inl e ->
      Java.processMessage rt r st = (st, inl e))
  /\
  (forall fileId userId key,
      snd (Java.decode r st) = inr (fileId, userId, key) ->
      exists calls,
        Java.history (fst (Java.processMessage rt r st))
        = Java.history st
          ++ [Java.EvAppendKey "fileId" fileId; Java.EvAppendKey "userId" userId;
              Java.EvGetLabels (Java.BUCKET_NAME_FILES rt) fileId userId key]
          ++ calls
          ++ [Java.EvRemoveKey "fileId"; Java.EvRemoveKey "userId"]).
Proof.
  split.
  - intros e Hdecode. exact (JavaFacts.processMessage_undecoded rt r st e Hdecode).
  - intros fileId userId key Hdecode.
    rewrite (JavaFacts.processMessage_decoded rt _ _ _ _ _ Hdecode).
    rewrite JavaFacts.try_finally_remove_keys. simpl fst.
    rewrite JavaMore.keys_removed_history.
    destruct (JavaMore.guarded_history rt fileId userId key
                (Java.labeled fileId userId st)) as [calls Hcalls].
    exists calls. rewrite Hcalls, JavaMore.labeled_history.
    repeat rewrite <- app_assoc. reflexivity.
Qed.

Lemma logging_keys_are_always_removed_witness :
  Java.processMessage JavaExamples.example_rt
                      (Java.mkDynamodbStreamRecord None) JavaExamples.cold
  = (JavaExamples.cold, inl Java.NPE)
  /\ exists calls,
       Java.history (fst (Java.processMessage JavaExamples.example_rt
                            (JavaExamples.record_of "denied") JavaExamples.cold))
       = [] ++ [Java.EvAppendKey "fileId" (Some "denied");
                Java.EvAppendKey "userId" (Some "user-1");
                Java.EvGetLabels (Some "files") (Some "denied") (Some "user-1")
                                 (Some "transformed/denied.jpg")]
            ++ calls
            ++ [Java.EvRemoveKey "fileId"; Java.EvRemoveKey "userId"].
Proof.
  split.
  - exact (proj1 (logging_keys_are_always_removed
                    JavaExamples.example_rt (Java.mkDynamodbStreamRecord None)
                    JavaExamples.cold) Java.NPE eq_refl).
  - exact (proj2 (logging_keys_are_always_removed
                    JavaExamples.example_rt (JavaExamples.record_of "denied")
                    JavaExamples.cold)
                 (Some "denied") (Some "user-1") (Some "transformed/denied.jpg")
                 eq_refl).
Defined.

(** X14. In the managed-runtime variant a record whose labeling call does
    not raise an image-detection exception asks no provider and files no
    report. When the call returns, the processor returns; when the call
    raises any other exception, the processor ends with that very
    exception. Either way its calls are the two keys being set, the
    labeling call and the two keys being removed. *)
Theorem without_image_detection_no_lookup_is_made
        (rt : Java.Runtime) (r : Java.DynamodbStreamRecord) (st : Java.State)
        (fileId userId key : option string) :
  let before := Java.labeled fileId userId st in
  let labels := Java.EvGetLabels (Java.BUCKET_NAME_FILES rt) fileId userId key in
  let after := Java.keys_removed (Java.record_event labels before) in
  snd (Java.decode r st) = inr (fileId, userId, key) ->
  Java.history after
  = Java.history st
    ++ [Java.EvAppendKey "fileId" fileId; Java.EvAppendKey "userId" userId; labels;
        Java.EvRemoveKey "fileId"; Java.EvRemoveKey "userId"]
  /\
  (Java.getLabels_impl rt (Java.history before) (Java.BUCKET_NAME_FILES rt)
                       fileId userId key = None ->
   Java.processMessage rt r st = (after, inr tt))
  /\
  (forall e,
      Java.getLabels_impl rt (Java.history before) (Java.BUCKET_NAME_FILES rt)
                          fileId userId key = Some e ->
      Java.is_ImageDetectionException e = false ->
      Java.processMessage rt r st = (after, inl e)).
Proof.
  intros before labels after Hdecode. split; [| split].
  - unfold after, before. rewrite JavaMore.keys_removed_history. simpl.
    repeat rewrite <- app_assoc. reflexivity.
  - intros Hlabels.
    exact (JavaFacts.processMessage_labeled rt _ _ _ _ _ Hdecode Hlabels).
  - intros e Hlabels Hother.
    rewrite (JavaFacts.processMessage_failed rt _ _ _ _ _ _ Hdecode Hlabels), Hother.
    reflexivity.
Qed.

Lemma without_image_detection_no_lookup_is_made_witness :
  Java.processMessage JavaExamples.example_rt (JavaExamples.record_of "portrait")
                      JavaExamples.cold
  = (Java.mkState
       [Java.EvAppendKey "fileId" (Some "portrait");
        Java.EvAppendKey "userId" (Some "user-1");
        Java.EvGetLabels (Some "files") (Some "portrait") (Some "user-1")
                         (Some "transformed/portrait.jpg");
        Java.EvRemoveKey "fileId"; Java.EvRemoveKey "userId"] [] [],
     inr tt)
  /\
  Java.processMessage JavaExamples.example_rt (JavaExamples.record_of "denied")
                      JavaExamples.cold
  = (Java.mkState
       [Java.EvAppendKey "fileId" (Some "denied");
        Java.EvAppendKey "userId" (Some "user-1");
        Java.EvGetLabels (Some "files") (Some "denied") (Some "user-1")
                         (Some "transformed/denied.jpg");
        Java.EvRemoveKey "fileId"; Java.EvRemoveKey "userId"] [] [],
     inl (Java.mkThrowable (Java.OtherException "AccessDeniedException")
                           (Some "Access denied"))).
Proof.
  split.
  - destruct (without_image_detection_no_lookup_is_made
                JavaExamples.example_rt (JavaExamples.record_of "portrait")
                JavaExamples.cold
                (Some "portrait") (Some "user-1") (Some "transformed/portrait.jpg")
                eq_refl) as (_ & Hreturns & _).
    exact (Hreturns eq_refl).
  - destruct (without_image_detection_no_lookup_is_made
                JavaExamples.example_rt (JavaExamples.record_of "denied")
                JavaExamples.cold
                (Some "denied") (Some "user-1") (Some "transformed/denied.jpg")
                eq_refl) as (_ & _ & Hraises).
    exact (Hraises _ eq_refl eq_refl).
Defined.

(** X15. In the managed-runtime variant nothing catches what goes wrong
    inside the catch clause, and the keys are removed all the same. When
    the parameter provider throws, the processor ends with that exception
    and asks neither the secret provider nor the reporting API; when the
    secret provider throws, it ends with that exception and files no
    report; when the report call throws, it ends with that exception. *)
Theorem failures_of_the_catch_clause_propagate
        (rt : Java.Runtime) (r : Java.DynamodbStreamRecord) (st : Java.State)
        (fileId userId key : option string) (e : Java.Throwable) :
  let before := Java.labeled fileId userId st in
  let labels := Java.EvGetLabels (Java.BUCKET_NAME_FILES rt) fileId userId key in
  let warn := Java.EvLoggerWarn "No person found in the image" in
  let warned := Java.record_event warn (Java.record_event labels before) in
  snd (Java.decode r st) = inr (fileId, userId, key) ->
  Java.getLabels_impl rt (Java.history before) (Java.BUCKET_NAME_FILES rt)
                      fileId userId key = Some e ->
  Java.is_ImageDetectionException e = true ->
  (forall st2 failure,
      Java.provider_get rt Java.Ssm 900 (Java.API_URL_PARAMETER_NAME rt) warned
      = (st2, inl failure) ->
      Java.processMessage rt r st = (Java.keys_removed st2, inl failure))
  /\
  (forall st2 st3 apiUrl failure,
      Java.provider_get rt Java.Ssm 900 (Java.API_URL_PARAMETER_NAME rt) warned
      = (st2, inr apiUrl) ->
      Java.provider_get rt Java.Secrets 900 (Java.API_KEY_SECRET_NAME rt) st2
      = (st3, inl failure) ->
      Java.processMessage rt r st = (Java.keys_removed st3, inl failure))
  /\
  (forall st2 st3 apiUrl apiKey failure,
      Java.provider_get rt Java.Ssm 900 (Java.API_URL_PARAMETER_NAME rt) warned
      = (st2, inr apiUrl) ->
      Java.provider_get rt Java.Secrets 900 (Java.API_KEY_SECRET_NAME rt) st2
      = (st3, inr apiKey) ->
      Java.reportImageIssue_impl rt (Java.history st3) fileId userId
                                 (Some apiUrl) (Some apiKey) = Some failure ->
      Java.processMessage rt r st
      = (Java.keys_removed
           (Java.record_event
              (Java.EvReportImageIssue fileId userId (Some apiUrl) (Some apiKey)) st3),
         inl failure)).
Proof.
  intros before labels warn warned Hdecode Hlabels Hcaught.
  pose proof (JavaMore.processMessage_caught rt r st _ _ _ _ Hdecode Hlabels Hcaught)
    as Hrun.
  cbv zeta in Hrun. fold before labels in Hrun.
  split; [| split].
  - intros st2 failure Hurl. rewrite Hrun.
    unfold Java.on_image_detection, Java.bind, Java.LOGGER_warn, Java.call.
    fold warn warned. rewrite Hurl. reflexivity.
  - intros st2 st3 apiUrl failure Hurl Hkey. rewrite Hrun.
    unfold Java.on_image_detection, Java.bind, Java.LOGGER_warn, Java.call.
    fold warn warned. rewrite Hurl, Hkey. reflexivity.
  - intros st2 st3 apiUrl apiKey failure Hurl Hkey Hreport. rewrite Hrun.
    rewrite (JavaFacts.on_image_detection_run rt _ _ _ _ _ _ _ _ Hurl Hkey), Hreport.
    reflexivity.
Qed.

Lemma failures_of_the_catch_clause_propagate_witness :
  (let run := Java.processMessage JavaCases.rt_unknown_parameter
                                  (JavaExamples.record_of "no-person")
                                  JavaExamples.cold in
   snd run = inl (Java.mkThrowable (Java.OtherException "ParameterNotFoundException")
                                   (Some "/workshop/unknown"))
   /\ Java.count Java.is_lookup_or_report (Java.history (fst run)) = 1)
  /\
  (let run := Java.processMessage JavaCases.rt_unknown_secret
                                  (JavaExamples.record_of "no-person")
                                  JavaExamples.cold in
   snd run = inl (Java.mkThrowable (Java.OtherException "ResourceNotFoundException")
                                   (Some "workshop/unknown"))
   /\ Java.count Java.is_lookup_or_report (Java.history (fst run)) = 2)
  /\
  (let run := Java.processMessage JavaCases.rt_rejecting_report
                                  (JavaExamples.record_of "no-person")
                                  JavaExamples.cold in
   snd run = inl JavaCases.refused
   /\ Java.count Java.is_lookup_or_report (Java.history (fst run)) = 3).
Proof.
  split; [| split].
  - destruct (failures_of_the_catch_clause_propagate
                JavaCases.rt_unknown_parameter (JavaExamples.record_of "no-person")
                JavaExamples.cold
                (Some "no-person") (Some "user-1") (Some "transformed/no-person.jpg")
                (Java.mkThrowable Java.NoPersonFoundException (Some "No person found"))
                eq_refl eq_refl eq_refl) as (Hparameter & _ & _).
    rewrite (Hparameter _ _ eq_refl). split; reflexivity.
  - destruct (failures_of_the_catch_clause_propagate
                JavaCases.rt_unknown_secret (JavaExamples.record_of "no-person")
                JavaExamples.cold
                (Some "no-person") (Some "user-1") (Some "transformed/no-person.jpg")
                (Java.mkThrowable Java.NoPersonFoundException (Some "No person found"))
                eq_refl eq_refl eq_refl) as (_ & Hsecret & _).
    rewrite (Hsecret _ _ _ _ eq_refl eq_refl). split; reflexivity.
  - destruct (failures_of_the_catch_clause_propagate
                JavaCases.rt_rejecting_report (JavaExamples.record_of "no-person")
                JavaExamples.cold
                (Some "no-person") (Some "user-1") (Some "transformed/no-person.jpg")
                (Java.mkThrowable Java.NoPersonFoundException (Some "No person found"))
                eq_refl eq_refl eq_refl) as (_ & _ & Hreport).
    rewrite (Hreport _ _ _ _ _ eq_refl eq_refl eq_refl). split; reflexivity.
Defined.

(** X16. Any failure of a record stops the batch, wherever the record
    stands and whatever made it fail (a payload that cannot be decoded, a
    hard failure, a failure inside the soft branch): when the records
    before it return normally and the record handler throws on it, the
    handler throws its own error from the history reached at that point,
    and the records after it have no influence on the run. *)
Theorem any_record_failure_stops_the_batch
        (rt : TS.Runtime) (pre post : list TS.DynamoDBRecord) (record : TS.DynamoDBRecord)
        (h h1 h2 : TS.History) (e : TS.Thrown) :
  TS.handler rt (TS.mkDynamoDBStreamEvent pre) h = (h1, inr tt) ->
  TS.recordHandler rt record h1 = (h2, inl e) ->
  TS.handler rt (TS.mkDynamoDBStreamEvent (pre ++ record :: post)) h
  = (h2, inl (TS.mkThrown TS.Error "Error processing record")).
Proof.
  intros Hpre Hrecord. unfold TS.handler in *. simpl TS.Records in *.
  rewrite TSMore.process_records_app, Hpre.
  exact (TSFacts.process_records_abort rt record post h1 h2 e Hrecord).
Qed.

Lemma any_record_failure_stops_the_batch_witness :
  TS.handler TSExamples.example_rt
             (TS.mkDynamoDBStreamEvent
                ([TSExamples.record_of "portrait"; TSExamples.record_of "no-labels"]
                   ++ TS.mkDynamoDBRecord None (Some "REMOVE") None
                   :: [TSExamples.record_of "no-person"]))
             []
  = ([TSExamples.labels_call "portrait";
      TSExamples.labels_call "no-labels"; TSExamples.warn_call;
      TS.EvSsmSend TSExamples.url_name; TS.EvSecretsSend TSExamples.key_name;
      TSExamples.report_call "no-labels"],
     inl (TS.mkThrown TS.Error "Error processing record")).
Proof.
  apply (any_record_failure_stops_the_batch
           TSExamples.example_rt
           [TSExamples.record_of "portrait"; TSExamples.record_of "no-labels"]
           [TSExamples.record_of "no-person"]
           (TS.mkDynamoDBRecord None (Some "REMOVE") None) []
           [TSExamples.labels_call "portrait";
            TSExamples.labels_call "no-labels"; TSExamples.warn_call;
            TS.EvSsmSend TSExamples.url_name; TS.EvSecretsSend TSExamples.key_name;
            TSExamples.report_call "no-labels"]
           _
           (TS.mkThrown TS.TypeError
              "Cannot read properties of undefined (reading 'NewImage')"));
    reflexivity.
Defined.
